(** * Voxel meshing and script runner of the 0hmX coding adventure

    A shallow embedding of the voxel core found in
    [src/utils/voxel-utils.ts] and [src/workers/worker.ts]:
    - [getVoxelColor], [generateVoxelGeometry], [updateVoxelMesh],
      [resetVoxelData], [disposeVoxelResources];
    - [runPythonCode] and the worker's [self.onmessage] event loop;
    - the worker's [init], [startRenderLoop], [stopRenderLoop] and
      [terminate].

    JavaScript exceptions are the [Throw] case of the result type [res];
    the three.js scene, its mesh handle and the GPU resources are modelled
    by a list of scene nodes and a trace of resource operations; the
    embedded interpreter (jspython) and the three.js colour parser are
    section variables. *)

From Stdlib Require Import ZArith QArith String Lia Lqa.
From stdpp Require Import base list.

Open Scope Z_scope.

(** ** Results of code that may throw *)

Inductive res (A : Type) : Type :=
| Ok (a : A)
| Throw (msg : string).
Arguments Ok {A} a.
Arguments Throw {A} msg.

Definition res_bind {A B} (m : res A) (k : A -> res B) : res B :=
  match m with
  | Ok a => k a
  | Throw e => Throw e
  end.

Notation "x <- m ;; k" := (res_bind m (fun x => k))
  (at level 100, m at next level, right associativity).

(** [for (const b of l)] threading an accumulator through a throwing body. *)
Fixpoint foldM {A B} (f : A -> B -> res A) (l : list B) (a : A) : res A :=
  match l with
  | [] => Ok a
  | x :: l' => a' <- f a x ;; foldM f l' a'
  end.

(** [for (let i = 0; i < n; ++i)] *)
Definition zrange (n : Z) : list Z := map Z.of_nat (seq 0 (Z.to_nat n)).

(** ** Data model *)

(** A cell of [voxelData]: [string | null] ([undefined] reads the same). *)
Abbreviation cell := (option string).

(** [voxelData[x][y][z]] *)
Abbreviation grid := (list (list (list cell))).

(** JavaScript truthiness of a [string | null]: [null] and [""] are falsy. *)
Definition truthy (c : cell) : bool :=
  match c with
  | Some (String _ _) => true
  | _ => false
  end.

(** Scene graph nodes: the voxel mesh (by handle id) or anything else
    (lights, axis and grid helpers added by [startRenderLoop]). *)
Inductive node : Type :=
| NVoxelMesh (id : nat)
| NOther (name : string).

(** Trace of the resource operations done on the scene and on GPU objects. *)
Inductive rsrc_event : Type :=
| ESceneRemove (id : nat)
| EDisposeGeometry (id : nat)
| EDisposeMaterial (id : nat)
| ENewGeometry (id : nat)
| ENewMaterial (id : nat)
| ENewMesh (id : nat)
| ESceneAdd (id : nat).

(** Messages posted by the worker with [self.postMessage]. *)
Inductive message : Type :=
| MSuccess
| MError (m : string)
| MWarning (x y z : Z) (m : string).

(** The worker's [state] object (the fields the core reads and writes). *)
Record WorkerState : Type := mkState {
  interpreter : bool;              (* state.interpreter !== null *)
  scene : option (list node);      (* state.scene *)
  voxelData : option grid;         (* state.voxelData *)
  voxelMesh : option nat;          (* state.voxelMesh, by handle id *)
  gridSize : Z;                    (* state.gridSize *)
  next_id : nat;                   (* fresh ids for three.js objects *)
  rlog : list rsrc_event;          (* resource trace *)
  outbox : list message            (* messages posted so far *)
}.

Definition post (st : WorkerState) (m : message) : WorkerState :=
  mkState (interpreter st) (scene st) (voxelData st) (voxelMesh st)
    (gridSize st) (next_id st) (rlog st) (outbox st ++ [m]).

Definition with_voxelData (st : WorkerState) (vd : grid) : WorkerState :=
  mkState (interpreter st) (scene st) (Some vd) (voxelMesh st)
    (gridSize st) (next_id st) (rlog st) (outbox st).

(** ** Array access *)

(** [arr[i]] for an integer index: [undefined] (here [None]) when missing. *)
Definition zlookup {A} (l : list A) (i : Z) : option A :=
  if i <? 0 then None else l !! Z.to_nat i.

(** [arr[i] = v] on a JavaScript array, [i >= 0]: writing past the end
    extends the array, the holes reading as [undefined]. *)
Definition js_array_set (row : list cell) (i : Z) (v : cell) : list cell :=
  if i <? 0 then row
  else if (Z.to_nat i <? length row)%nat then <[Z.to_nat i := v]> row
  else row ++ replicate (Z.to_nat i - length row)%nat None ++ [v].

(** [voxelData[x][y][z] = v]: throws a TypeError when [voxelData[x]] or
    [voxelData[x][y]] is [undefined]. *)
Definition set_cell (vd : grid) (x y z : Z) (v : cell) : res grid :=
  match zlookup vd x with
  | None => Throw "TypeError"
  | Some plane =>
      match zlookup plane y with
      | None => Throw "TypeError"
      | Some row =>
          Ok (<[Z.to_nat x := <[Z.to_nat y := js_array_set row z v]> plane]> vd)
      end
  end.

(** ** [getVoxelColor] (voxel-utils.ts, lines 17-23) *)

Definition out_of_bounds (gs x y z : Z) : bool :=
  (x <? 0) || (gs <=? x) || (y <? 0) || (gs <=? y) || (z <? 0) || (gs <=? z).

Definition getVoxelColor (st : WorkerState) (x y z : Z) : res cell :=
  match voxelData st with
  | None => Ok None
  | Some vd =>
      if out_of_bounds (gridSize st) x y z then Ok None
      else
        match zlookup vd x with
        | None => Throw "TypeError"        (* undefined[y] *)
        | Some plane =>
            match zlookup plane y with
            | None => Throw "TypeError"    (* undefined[z] *)
            | Some row =>
                match zlookup row z with
                | Some c => Ok c
                | None => Ok None          (* undefined *)
                end
            end
        end
  end.

(** ** [VoxelFaces] *)

Record Face : Type := mkFace {
  dir : Z * Z * Z;
  corners : list (Z * Z * Z)
}.

Definition VoxelFaces : list Face := [
  mkFace (-1, 0, 0) [(0, 1, 0); (0, 0, 0); (0, 1, 1); (0, 0, 1)];  (* left *)
  mkFace (1, 0, 0) [(1, 1, 1); (1, 0, 1); (1, 1, 0); (1, 0, 0)];   (* right *)
  mkFace (0, -1, 0) [(1, 0, 1); (0, 0, 1); (1, 0, 0); (0, 0, 0)];  (* bottom *)
  mkFace (0, 1, 0) [(0, 1, 1); (1, 1, 1); (0, 1, 0); (1, 1, 0)];   (* top *)
  mkFace (0, 0, -1) [(1, 0, 0); (0, 0, 0); (1, 1, 0); (0, 1, 0)];  (* back *)
  mkFace (0, 0, 1) [(0, 0, 1); (1, 0, 1); (0, 1, 1); (1, 1, 1)]    (* front *)
].

(** ** [generateVoxelGeometry] (voxel-utils.ts, lines 28-87) *)

(** A [THREE.Color] as its three channels. *)
Definition rgb : Type := Q * Q * Q.

(** [new THREE.Color()] is white; [tempColor.set(0x00ff00)] is green. *)
Definition white : rgb := (1%Q, 1%Q, 1%Q).
Definition green : rgb := (0%Q, 1%Q, 0%Q).

(** The arrays [positions], [normals], [colors] and [indices]. *)
Record Buf : Type := mkBuf {
  positions : list Q;
  normals : list Z;
  colors : list Q;
  indices : list Z
}.

Definition empty_buf : Buf := mkBuf [] [] [] [].

Section Mesher.

(** [tempColor.set(str)]: the new colour, or [None] when it throws. *)
Variable color_set : rgb -> string -> option rgb.

(** [const centerOffset = gridSize / 2 - 0.5] *)
Definition centerOffset (gs : Z) : Q := (inject_Z gs / 2 - (1 # 2))%Q.

(** [pos[0] + x - centerOffset, pos[1] + y - centerOffset, pos[2] + z - centerOffset] *)
Definition vertex_position (off : Q) (x y z : Z) (pos : Z * Z * Z) : list Q :=
  let '(p0, p1, p2) := pos in
  [(inject_Z (p0 + x) - off)%Q; (inject_Z (p1 + y) - off)%Q;
   (inject_Z (p2 + z) - off)%Q].

Definition dir_list (d : Z * Z * Z) : list Z :=
  let '(d0, d1, d2) := d in [d0; d1; d2].

Definition rgb_list (c : rgb) : list Q :=
  let '(r, g, b) := c in [r; g; b].

(** One iteration of [for (const pos of corners)]. *)
Definition push_vertex (c : rgb) (off : Q) (x y z : Z) (d : Z * Z * Z)
    (acc : Buf) (pos : Z * Z * Z) : Buf :=
  mkBuf (positions acc ++ vertex_position off x y z pos)
        (normals acc ++ dir_list d)
        (colors acc ++ rgb_list c)
        (indices acc).

(** One iteration of [for (const { dir, corners } of VoxelFaces)]. *)
Definition emit_face (st : WorkerState) (c : rgb) (off : Q) (x y z : Z)
    (acc : Buf) (f : Face) : res Buf :=
  let '(dx, dy, dz) := dir f in
  neighborColor <- getVoxelColor st (x + dx) (y + dy) (z + dz) ;;
  if truthy neighborColor then Ok acc
  else
    let ndx := Z.of_nat (length (positions acc)) / 3 in
    let acc1 := fold_left (push_vertex c off x y z (dir f)) (corners f) acc in
    Ok (mkBuf (positions acc1) (normals acc1) (colors acc1)
          (indices acc1 ++ [ndx; ndx + 1; ndx + 2; ndx + 2; ndx + 1; ndx + 3])).

(** The body of the innermost loop, on cell [(x, y, z)]; [tempColor] is
    threaded along. *)
Definition visit_cell (st : WorkerState) (off : Q) (acc : Buf * rgb)
    (x y z : Z) : res (Buf * rgb) :=
  let '(b, tempColor) := acc in
  voxelColorStr <- getVoxelColor st x y z ;;
  match voxelColorStr with
  | Some (String a s) =>
      let tc := match color_set tempColor (String a s) with
                | Some c => c
                | None => green
                end in
      b' <- foldM (emit_face st tc off x y z) VoxelFaces b ;;
      Ok (b', tc)
  | _ => Ok (b, tempColor)
  end.

Definition generateVoxelGeometry (st : WorkerState) : res Buf :=
  match voxelData st with
  | None => Throw "Voxel data not initialized"
  | Some _ =>
      let gs := gridSize st in
      let off := centerOffset gs in
      r <- foldM (fun acc y =>
             foldM (fun acc z =>
               foldM (fun acc x => visit_cell st off acc x y z)
                 (zrange gs) acc)
               (zrange gs) acc)
             (zrange gs) (empty_buf, white) ;;
      Ok (fst r)
  end.

End Mesher.

(** A grid given cell by cell; [grid_of gs (fun _ _ _ => None)] is the
    array [Array(gridSize).fill(null).map(...)] allocated by [init]. *)
Definition grid_of (gs : Z) (f : Z -> Z -> Z -> cell) : grid :=
  map (fun x => map (fun y => map (fun z => f x y z) (zrange gs)) (zrange gs))
    (zrange gs).

Definition state_of (gs : Z) (f : Z -> Z -> Z -> cell) : WorkerState :=
  mkState true (Some []) (Some (grid_of gs f)) None gs 0 [] [].

Definition one_cell (p : Z * Z * Z) (c : cell) (x y z : Z) : cell :=
  if decide ((x, y, z) = p) then c else None.

(** ** The grid invariant: a [gridSize]-sided cube *)

Definition wf_grid (gs : Z) (vd : grid) : bool :=
  (0 <=? gs) && (length vd =? Z.to_nat gs)%nat &&
  forallb (fun plane => (length plane =? Z.to_nat gs)%nat &&
             forallb (fun row => (length row =? Z.to_nat gs)%nat) plane) vd.

Definition wf_state (st : WorkerState) : bool :=
  match voxelData st with
  | Some vd => wf_grid (gridSize st) vd
  | None => false
  end.

(** The value stored at [voxelData[x][y][z]], when the three reads hit. *)
Definition cell_at (vd : grid) (x y z : Z) : option cell :=
  match zlookup vd x with
  | Some plane =>
      match zlookup plane y with
      | Some row => zlookup row z
      | None => None
      end
  | None => None
  end.

(** ** Faces of a buffer *)

(** An emitted face: the cell and the entry of [VoxelFaces]. *)
Abbreviation face_key := (Z * Z * Z * Face)%type.

Definition face_positions (off : Q) (k : face_key) : list Q :=
  let '(x, y, z, f) := k in flat_map (vertex_position off x y z) (corners f).

Definition face_normals (k : face_key) : list Z :=
  let '(_, _, _, f) := k in flat_map (fun _ => dir_list (dir f)) (corners f).

(** The [k]-th block of [w] consecutive entries. *)
Definition block {A} (w k : nat) (l : list A) : list A := take w (drop (w * k) l).

(** Face [f] of cell [(x, y, z)] is in the buffer: some 4-vertex block
    holds its four corner positions and its normal. *)
Definition has_face (gs : Z) (b : Buf) (x y z : Z) (f : Face) : Prop :=
  exists k, block 12 k (positions b) = face_positions (centerOffset gs) (x, y, z, f) /\
            block 12 k (normals b) = face_normals (x, y, z, f).

Definition res_truthy (r : res cell) : bool :=
  match r with
  | Ok c => truthy c
  | Throw _ => false
  end.

Definition neighbor (st : WorkerState) (x y z : Z) (f : Face) : res cell :=
  let '(dx, dy, dz) := dir f in getVoxelColor st (x + dx) (y + dy) (z + dz).

(** The faces the loops of [generateVoxelGeometry] emit, in order. *)
Definition cell_faces (st : WorkerState) (x y z : Z) : list face_key :=
  if res_truthy (getVoxelColor st x y z) then
    flat_map (fun f => if res_truthy (neighbor st x y z f) then [] else [(x, y, z, f)])
      VoxelFaces
  else [].

Definition face_list (st : WorkerState) : list face_key :=
  let gs := gridSize st in
  flat_map (fun y => flat_map (fun z => flat_map (fun x => cell_faces st x y z)
    (zrange gs)) (zrange gs)) (zrange gs).

(** [b'] is [b] with the faces [fl] appended. *)
Definition extends (off : Q) (b b' : Buf) (fl : list face_key) : Prop :=
  positions b' = positions b ++ flat_map (face_positions off) fl /\
  normals b' = normals b ++ flat_map face_normals fl /\
  length (colors b') = (length (colors b) + 12 * length fl)%nat /\
  length (indices b') = (length (indices b) + 6 * length fl)%nat.

(** The buffer invariant: [n] vertices, three entries per vertex in each of
    [positions], [normals] and [colors], six indices per face, every index
    a vertex offset. *)
Definition buf_inv (b : Buf) : Prop :=
  exists n,
    length (positions b) = (3 * n)%nat /\ length (normals b) = (3 * n)%nat /\
    length (colors b) = (3 * n)%nat /\
    (exists m, length (indices b) = (6 * m)%nat) /\
    Forall (fun i => 0 <= i < Z.of_nat n) (indices b).

(** The value a cell read has for the mesher, which only tests it for
    truthiness: [""] reads as [null]. *)
Definition falsy_to_null (r : res cell) : res cell :=
  match r with
  | Ok c => if truthy c then Ok c else Ok None
  | Throw e => Throw e
  end.

(** ** The worker's state and exception monad *)

(** A computation on the worker's module-level [state]. An exception
    keeps the mutations made before it, as in JavaScript. *)
Definition M (A : Type) : Type := WorkerState -> res A * WorkerState.

Definition mret {A} (a : A) : M A := fun st => (Ok a, st).

Definition mbind {A B} (m : M A) (k : A -> M B) : M B := fun st =>
  match m st with
  | (Ok a, st') => k a st'
  | (Throw e, st') => (Throw e, st')
  end.

Notation "x <-- m ;; k" := (mbind m (fun x => k))
  (at level 100, m at next level, right associativity).

Definition mthrow {A} (e : string) : M A := fun st => (Throw e, st).

(** [try { m } catch (e) { h(e) }] *)
Definition mtry {A} (m : M A) (h : string -> M A) : M A := fun st =>
  match m st with
  | (Throw e, st') => h e st'
  | r => r
  end.

Definition mgets {A} (f : WorkerState -> A) : M A := fun st => (Ok (f st), st).

Definition mlift {A} (r : res A) : M A := fun st => (r, st).

(** [self.postMessage(msg)] *)
Definition mpost (msg : message) : M unit := fun st => (Ok tt, post st msg).

(** [for (const i of l) body(i)] *)
Fixpoint mfor {B} (l : list B) (body : B -> M unit) : M unit :=
  match l with
  | [] => mret tt
  | i :: l' => _ <-- body i ;; mfor l' body
  end.

(** [voxelData[x][y][z] = v] on [state.voxelData]. *)
Definition set_voxel (x y z : Z) (v : cell) : M unit := fun st =>
  match voxelData st with
  | None => (Throw "TypeError", st)
  | Some vd =>
      match set_cell vd x y z v with
      | Ok vd' => (Ok tt, with_voxelData st vd')
      | Throw e => (Throw e, st)
      end
  end.

(** ** [updateVoxelMesh] (worker.ts, lines 871-905; voxel-utils.ts, lines 92-120) *)

#[global] Instance node_eq_dec : EqDecision node.
Proof.
  intros [a|a] [b|b]; try (right; discriminate).
  - destruct (Nat.eq_dec a b) as [->|H]; [left; reflexivity|right; congruence].
  - destruct (string_dec a b) as [->|H]; [left; reflexivity|right; congruence].
Defined.

(** [scene.remove(obj)]: drops the first occurrence of [obj] among the
    children. *)
Fixpoint scene_remove (n : node) (sc : list node) : list node :=
  match sc with
  | [] => []
  | n' :: sc' => if decide (n' = n) then sc' else n' :: scene_remove n sc'
  end.

Definition dispose_events (m : option nat) : list rsrc_event :=
  match m with
  | Some i => [ESceneRemove i; EDisposeGeometry i; EDisposeMaterial i]
  | None => []
  end.

Section Update.

Variable color_set : rgb -> string -> option rgb.

Definition updateVoxelMesh : M unit := fun st =>
  match scene st with
  | None => (Ok tt, st)
  | Some sc =>
      (* remove and dispose the old mesh, [state.voxelMesh = null] *)
      let sc1 := match voxelMesh st with
                 | Some i => scene_remove (NVoxelMesh i) sc
                 | None => sc
                 end in
      let st1 := mkState (interpreter st) (Some sc1) (voxelData st) None
                   (gridSize st) (next_id st)
                   (rlog st ++ dispose_events (voxelMesh st)) (outbox st) in
      match generateVoxelGeometry color_set st1 with
      | Throw e => (Throw e, st1)
      | Ok b =>
          let g := next_id st1 in
          if (0 <? length (indices b))%nat then
            (* new material, new mesh, [scene.add] *)
            (Ok tt, mkState (interpreter st1) (Some (sc1 ++ [NVoxelMesh g]))
                      (voxelData st1) (Some g) (gridSize st1) (S g)
                      (rlog st1 ++ [ENewGeometry g; ENewMaterial g; ENewMesh g; ESceneAdd g])
                      (outbox st1))
          else
            (* [geometry.dispose()] *)
            (Ok tt, mkState (interpreter st1) (Some sc1) (voxelData st1) None
                      (gridSize st1) (S g)
                      (rlog st1 ++ [ENewGeometry g; EDisposeGeometry g]) (outbox st1))
      end
  end.

End Update.

(** ** [runPythonCode] (worker.ts, lines 996-1064) *)

(** The values [interpreter.eval] returns. *)
Inductive jsval : Type :=
| JStr (s : string)
| JBool (b : bool)
| JNum (q : Q)
| JNull
| JUndefined
| JObject.

(** [if (typeof result === 'string') ... else if (result === true) ... else ...] *)
Definition result_to_cell (r : jsval) : cell :=
  match r with
  | JStr s => Some s
  | JBool true => Some "#00ff00"%string
  | _ => None
  end.

(** [!interpreter || !scene || !voxelData] negated. *)
Definition initialized (st : WorkerState) : bool :=
  interpreter st &&
  match scene st with Some _ => true | None => false end &&
  match voxelData st with Some _ => true | None => false end.

(** The [(x, y)] rows of the two outer loops, in order. *)
Definition rows (gs : Z) : list (Z * Z) := list_prod (zrange gs) (zrange gs).

Section Runner.

Variable color_set : rgb -> string -> option rgb.

(** The jspython interpreter: [interpreter.parse(code)] and
    [interpreter.eval(codeAst, context, ["draw", x, y, z, gridSize])]. *)
Variable ast : Type.
Variable interp_parse : string -> res ast.
Variable interp_eval : ast -> Z -> Z -> Z -> Z -> res jsval.

(** The inner [try]/[catch] on cell [(x, y, z)]. *)
Definition eval_cell (a : ast) (gs x y z : Z) : M unit :=
  mtry (result <-- mlift (interp_eval a x y z gs) ;;
        set_voxel x y z (result_to_cell result))
       (fun e => _ <-- mpost (MWarning x y z e) ;; set_voxel x y z None).

(** The body of the [y] loop: the [z] loop on row [(x, y)]. *)
Definition eval_row (a : ast) (gs x y : Z) : M unit :=
  mfor (zrange gs) (fun z => eval_cell a gs x y z).

(** A run suspended at its [await]: the parsed code, the local [gridSize]
    and the rows left. *)
Record task : Type := Task {
  t_ast : ast;
  t_gs : Z;
  t_rows : list (Z * Z)
}.

(** The rows [rs], up to the next [await] (after a row with
    [y % 4 === 0]) or to the end of the run: [updateVoxelMesh()] and the
    success message. [Some t]: suspended, the timer callback resumes [t]. *)
Fixpoint run_rows (a : ast) (gs : Z) (rs : list (Z * Z)) : M (option task) :=
  match rs with
  | [] =>
      _ <-- updateVoxelMesh color_set ;;
      _ <-- mpost MSuccess ;;
      mret None
  | (x, y) :: rs' =>
      _ <-- eval_row a gs x y ;;
      if Z.rem y 4 =? 0 then mret (Some (Task a gs rs')) else run_rows a gs rs'
  end.

(** The outer [try]/[catch]. *)
Definition catch_run (m : M (option task)) : M (option task) :=
  mtry m (fun e => _ <-- mpost (MError ("Code execution failed: " ++ e)) ;; mret None).

(** [runPythonCode({ code })], up to its first [await]. *)
Definition runPythonCode (code : string) : M (option task) :=
  catch_run (
    ok <-- mgets initialized ;;
    if negb ok then mthrow "Interpreter, scene, or voxelData not initialized"
    else
      gs <-- mgets gridSize ;;
      _ <-- mfor (zrange gs) (fun x => mfor (zrange gs) (fun y =>
              mfor (zrange gs) (fun z => set_voxel x y z None))) ;;
      codeAst <-- mlift (interp_parse code) ;;
      run_rows codeAst gs (rows gs)).

(** The continuation of a suspended run. *)
Definition resume (t : task) : M (option task) :=
  catch_run (run_rows (t_ast t) (t_gs t) (t_rows t)).

(** A run with nothing else happening while it is suspended: each
    continuation is resumed at once. One resumption per row is enough. *)
Fixpoint drive (fuel : nat) (o : option task) : M unit :=
  match fuel, o with
  | S n, Some t => o' <-- resume t ;; drive n o'
  | _, _ => mret tt
  end.

Definition run_alone (code : string) : M unit := fun st =>
  (o <-- runPythonCode code ;; drive (length (rows (gridSize st))) o) st.

(** ** The worker's event loop *)

(** Pending [runPythonCode] messages and pending timer callbacks (each
    the continuation of a suspended run). *)
Record World : Type := mkWorld {
  wstate : WorkerState;
  inbox : list string;
  timers : list task
}.

Definition pending (r : res (option task)) : list task :=
  match r with
  | Ok (Some t) => [t]
  | _ => []
  end.

(** [self.onmessage] on a [runPythonCode] message: the handler runs up to
    its first [await]; its continuation goes to the timer queue. *)
Definition deliver (w : World) : World :=
  match inbox w with
  | [] => w
  | code :: rest =>
      let '(r, st') := runPythonCode code (wstate w) in
      mkWorld st' rest (timers w ++ pending r)
  end.

(** A [setTimeout(resolve, 0)] callback fires and the run resumes. *)
Definition fire (w : World) : World :=
  match timers w with
  | [] => w
  | t :: rest =>
      let '(r, st') := resume t (wstate w) in
      mkWorld st' (inbox w) (rest ++ pending r)
  end.

Inductive wstep : World -> World -> Prop :=
| step_deliver w : inbox w <> [] -> wstep w (deliver w)
| step_fire w : timers w <> [] -> wstep w (fire w).

(** What the run leaves in a cell, and the warnings it posts there. *)
Definition cell_value (a : ast) (gs : Z) (p : Z * Z * Z) : cell :=
  let '(x, y, z) := p in
  match interp_eval a x y z gs with
  | Ok r => result_to_cell r
  | Throw _ => None
  end.

Definition cell_warning (a : ast) (gs : Z) (p : Z * Z * Z) : list message :=
  let '(x, y, z) := p in
  match interp_eval a x y z gs with
  | Ok _ => []
  | Throw e => [MWarning x y z e]
  end.

End Runner.

Arguments wstate {ast} _.
Arguments inbox {ast} _.
Arguments timers {ast} _.

(** The cells of the evaluation loops, in order. *)
Definition loop_cells (gs : Z) : list (Z * Z * Z) :=
  flat_map (fun '(x, y) => map (fun z => (x, y, z)) (zrange gs)) (rows gs).

Fixpoint voxel_meshes (sc : list node) : list nat :=
  match sc with
  | [] => []
  | NVoxelMesh i :: sc' => i :: voxel_meshes sc'
  | NOther _ :: sc' => voxel_meshes sc'
  end.

Definition mesh_count (st : WorkerState) : nat :=
  match scene st with
  | Some sc => length (voxel_meshes sc)
  | None => 0
  end.

Definition opt_list {A} (o : option A) : list A :=
  match o with
  | Some a => [a]
  | None => []
  end.

(** [m] writes [V p] at every cell [p] of [L] and posts the warnings [W p]
    in the order of [L], on any well-formed grid of side [gs], and changes
    nothing else. *)
Definition writes (V : Z * Z * Z -> cell) (W : Z * Z * Z -> list message)
    (gs : Z) (m : M unit) (L : list (Z * Z * Z)) : Prop :=
  forall st vd, voxelData st = Some vd -> gridSize st = gs -> wf_grid gs vd = true ->
  exists vd',
    m st = (Ok tt, mkState (interpreter st) (scene st) (Some vd') (voxelMesh st)
                     (gridSize st) (next_id st) (rlog st) (outbox st ++ flat_map W L)) /\
    wf_grid gs vd' = true /\
    (forall x y z, In (x, y, z) L -> cell_at vd' x y z = Some (V (x, y, z))) /\
    (forall x y z, ~ In (x, y, z) L -> cell_at vd' x y z = cell_at vd x y z).

(** A stand-in interpreter for the examples: any source text parses, and
    [draw] returns ["red"] on the plane [x = 0], [true] on [x = 1], a number
    elsewhere, and throws at [(0, 0, 0)] when the source text is ["bad"]. *)
Definition demo_parse (code : string) : res string := Ok code.

Definition demo_eval (code : string) (x y z gs : Z) : res jsval :=
  if String.eqb code "bad" && (x =? 0) && (y =? 0) && (z =? 0) then Throw "boom"
  else if x =? 0 then Ok (JStr "red")
  else if x =? 1 then Ok (JBool true)
  else Ok (JNum 1).

(** Another stand-in: [draw] returns the source text as a colour. *)
Definition echo_eval (code : string) (x y z gs : Z) : res jsval := Ok (JStr code).

(** A worker with a one-voxel grid of side 2 whose mesh (handle [0]) is in
    the scene beside a light. *)
Definition demo_state : WorkerState :=
  mkState true (Some [NOther "light"; NVoxelMesh 0])
    (Some (grid_of 2 (one_cell (0, 0, 0) (Some "red"%string)))) (Some 0%nat) 2 1 [] [].

(** ** [resetVoxelData] (voxel-utils.ts, lines 125-145) *)

(** [Array(gridSize).fill(null).map(...)]: [Array(n)] throws a RangeError
    unless [n] is a valid array length, an integer in [[0, 2^32)]. *)
Definition new_grid (gs : Z) : res grid :=
  if (0 <=? gs) && (gs <? 4294967296) then Ok (grid_of gs (fun _ _ _ => None))
  else Throw "Invalid array length".

Definition resetVoxelData : M unit := fun st =>
  let gs := gridSize st in
  let alloc := match new_grid gs with
               | Ok g => (Ok tt, with_voxelData st g)
               | Throw e => (Throw e, st)
               end in
  match voxelData st with
  | Some vd =>
      if Z.of_nat (length vd) =? gs then
        (* reset the existing array in place *)
        mfor (zrange gs) (fun x => mfor (zrange gs) (fun y =>
          mfor (zrange gs) (fun z => set_voxel x y z None))) st
      else alloc
  | None => alloc
  end.

(** ** [disposeVoxelResources] (voxel-utils.ts, lines 150-164) *)

Definition disposeVoxelResources : M unit := fun st =>
  match voxelMesh st with
  | Some i =>
      (Ok tt, mkState (interpreter st) (scene st) (voxelData st) None (gridSize st)
                (next_id st) (rlog st ++ [EDisposeGeometry i; EDisposeMaterial i])
                (outbox st))
  | None => (Ok tt, st)
  end.

(** The nodes of a scene other than voxel meshes (lights and helpers). *)
Fixpoint other_nodes (sc : list node) : list string :=
  match sc with
  | [] => []
  | NVoxelMesh _ :: sc' => other_nodes sc'
  | NOther s :: sc' => s :: other_nodes sc'
  end.

(** The index array of [n] quads, vertices [4k .. 4k+3] for the [k]-th,
    each drawn as the triangles [(v, v+1, v+2)] and [(v+2, v+1, v+3)]. *)
Definition quad_indices (n : nat) : list Z :=
  flat_map (fun k => let v := 4 * Z.of_nat k in [v; v + 1; v + 2; v + 2; v + 1; v + 3])
    (seq 0 n).

(** ** The worker's lifecycle handlers (worker.ts, lines 709-775, 930-987, 1071-1102) *)

(** Messages of the whole worker: those of the voxel core, and the
    [{ type, status: 'success' }] acknowledgements of the handlers. *)
Inductive wmessage : Type :=
| WCore (m : message)
| WStatus (type : string).

(** The whole [state] object: the core fields, [state.three],
    [state.camera] and [state.animationFrameId] as set or [null]; and the
    messages posted so far. The core's own [outbox] is moved to [posted]
    whenever the core runs. *)
Record Worker : Type := mkWorker {
  core : WorkerState;
  three : bool;
  camera : bool;
  animating : bool;
  posted : list wmessage
}.

(** The module-level [state] when the worker starts. *)
Definition initial_worker : Worker :=
  mkWorker (mkState false None None None 0 0 [] []) false false false [].

(** Run a core computation on [state]; the messages it posts go to [posted]. *)
Definition lift_core {A} (m : M A) (w : Worker) : res A * Worker :=
  let '(r, st') := m (core w) in
  (r, mkWorker (mkState (interpreter st') (scene st') (voxelData st') (voxelMesh st')
                  (gridSize st') (next_id st') (rlog st') [])
        (three w) (camera w) (animating w) (posted w ++ map WCore (outbox st'))).

Definition wpost (w : Worker) (m : wmessage) : Worker :=
  mkWorker (core w) (three w) (camera w) (animating w) (posted w ++ [m]).

(** The lights and helpers [startRenderLoop] adds to the scene. *)
Definition scene_helpers : list node :=
  [NOther "AmbientLight"; NOther "DirectionalLight"; NOther "AxesHelper"; NOther "GridHelper"].

Definition startRenderLoop (w : Worker) : Worker :=
  let st := core w in
  match three w, scene st, camera w with
  | true, Some sc, true =>
      mkWorker (mkState (interpreter st) (Some (sc ++ scene_helpers)) (voxelData st)
                  (voxelMesh st) (gridSize st) (next_id st) (rlog st) (outbox st))
        (three w) (camera w) true (posted w)
  | _, _, _ =>
      wpost w (WCore (MError
        "Cannot start render loop: renderer, scene, or camera not initialized"))
  end.

Definition stopRenderLoop (w : Worker) : Worker :=
  mkWorker (core w) (three w) (camera w) false (posted w).

Section Lifecycle.

Variable color_set : rgb -> string -> option rgb.

(** [new THREE.WebGLRenderer(...)] with its set-up calls, and
    [new OrbitControls(...)]: each may throw. *)
Variable new_renderer : res unit.
Variable new_controls : res unit.

(** The [catch] of [init]. *)
Definition init_failed (w : Worker) (st : WorkerState) (three' camera' : bool)
    (e : string) : Worker :=
  mkWorker st three' camera' (animating w)
    (posted w ++ [WCore (MError ("Initialization failed: " ++ e))]).

(** [init({ gridSize, ... })] *)
Definition init (gs : Z) (w : Worker) : Worker :=
  let st := core w in
  (* state.gridSize = gridSize; state.interpreter = jsPython() *)
  let st0 := mkState true (scene st) (voxelData st) (voxelMesh st) gs (next_id st)
               (rlog st) (outbox st) in
  match new_renderer with
  | Throw e => init_failed w st0 (three w) (camera w) e
  | Ok _ =>
      (* state.three, state.scene = new THREE.Scene(), state.camera *)
      let st1 := mkState true (Some []) (voxelData st) (voxelMesh st) gs (next_id st)
                   (rlog st) (outbox st) in
      match new_controls with
      | Throw e => init_failed w st1 true true e
      | Ok _ =>
          match new_grid gs with
          | Throw e => init_failed w st1 true true e
          | Ok g =>
              let '(r, w3) := lift_core (updateVoxelMesh color_set)
                                (mkWorker (with_voxelData st1 g) true true (animating w)
                                   (posted w)) in
              match r with
              | Throw e => init_failed w3 (core w3) true true e
              | Ok _ => wpost (startRenderLoop w3) (WStatus "init")
              end
          end
      end
  end.

End Lifecycle.

(** [terminate()]: its [try] block cannot throw here. *)
Definition terminate (w : Worker) : Worker :=
  let w1 := stopRenderLoop w in
  let st := core w1 in
  let ev := match voxelMesh st with
            | Some i =>
                match scene st with
                | Some _ => [ESceneRemove i]      (* state.scene?.remove(...) *)
                | None => []
                end ++ [EDisposeGeometry i; EDisposeMaterial i]
            | None => []
            end in
  mkWorker (mkState false None None None (gridSize st) (next_id st) (rlog st ++ ev)
              (outbox st))
    false false false (posted w1 ++ [WStatus "terminate"]).

(** * Proofs *)

(** ** Loops *)

Lemma foldM_flat {A B C} (R : A -> A -> list C -> Prop) (f : A -> B -> res A)
    (g : B -> list C) (l : list B) (a : A) :
  (forall a, R a a []) ->
  (forall a1 a2 a3 l1 l2, R a1 a2 l1 -> R a2 a3 l2 -> R a1 a3 (l1 ++ l2)) ->
  (forall a x, In x l -> exists a', f a x = Ok a' /\ R a a' (g x)) ->
  exists a', foldM f l a = Ok a' /\ R a a' (flat_map g l).
Proof.
  intros Hrefl Htrans Hstep. revert a.
  induction l as [|x l IH]; intros a; simpl.
  - exists a. auto.
  - destruct (Hstep a x (or_introl eq_refl)) as [a1 [Hf HR1]].
    rewrite Hf. simpl.
    destruct (IH (fun a y Hy => Hstep a y (or_intror Hy)) a1) as [a2 [Hl HR2]].
    exists a2. split; [exact Hl|]. eapply Htrans; eauto.
Qed.

Lemma foldM_inv {A B} (P : A -> Prop) (f : A -> B -> res A) (l : list B) (a a' : A) :
  P a -> (forall a x a', In x l -> P a -> f a x = Ok a' -> P a') ->
  foldM f l a = Ok a' -> P a'.
Proof.
  intros Ha Hstep. revert a Ha.
  induction l as [|x l IH]; intros a Ha; simpl.
  - intros H. injection H as <-. exact Ha.
  - destruct (f a x) as [a1|e] eqn:Hf; simpl; [|discriminate].
    apply IH.
    + intros a0 y a0' Hy. apply Hstep. right. exact Hy.
    + eapply Hstep; [left; reflexivity|exact Ha|exact Hf].
Qed.

Lemma in_zrange (n x : Z) : In x (zrange n) <-> 0 <= x < n.
Proof.
  unfold zrange. rewrite in_map_iff. split.
  - intros [k [<- Hk]]. apply in_seq in Hk. lia.
  - intros Hx. exists (Z.to_nat x). split; [lia|]. apply in_seq. lia.
Qed.

Lemma NoDup_zrange (n : Z) : List.NoDup (zrange n).
Proof.
  unfold zrange. apply Finite.Injective_map_NoDup.
  - intros a b H. lia.
  - apply seq_NoDup.
Qed.

(** ** [getVoxelColor] on a well-formed grid *)

Lemma wf_grid_spec gs vd :
  wf_grid gs vd = true <->
  0 <= gs /\ length vd = Z.to_nat gs /\
  (forall plane, In plane vd -> length plane = Z.to_nat gs /\
     forall row, In row plane -> length row = Z.to_nat gs).
Proof.
  unfold wf_grid. rewrite !andb_true_iff, Z.leb_le, Nat.eqb_eq, forallb_forall.
  split.
  - intros [[H1 H2] H3]. split; [exact H1|]. split; [exact H2|].
    intros plane Hp. specialize (H3 plane Hp).
    apply andb_true_iff in H3 as [H3 H4]. split; [apply Nat.eqb_eq; exact H3|].
    intros row Hr. rewrite forallb_forall in H4. apply Nat.eqb_eq. auto.
  - intros [H1 [H2 H3]]. split; [split; auto|].
    intros plane Hp. destruct (H3 plane Hp) as [Hl Hr].
    apply andb_true_iff. split; [apply Nat.eqb_eq; exact Hl|].
    apply forallb_forall. intros row Hrow. apply Nat.eqb_eq. auto.
Qed.

Lemma zlookup_in_range {A} (l : list A) (i : Z) :
  0 <= i < Z.of_nat (length l) -> exists a, zlookup l i = Some a /\ In a l.
Proof.
  intros Hi. unfold zlookup.
  destruct (Z.ltb_spec i 0); [lia|].
  destruct (lookup_lt_is_Some_2 l (Z.to_nat i)) as [a Ha]; [lia|].
  exists a. split; [exact Ha|]. apply list_elem_of_In. eapply list_elem_of_lookup_2. eauto.
Qed.

Lemma cell_at_wf gs vd x y z :
  wf_grid gs vd = true -> 0 <= x < gs -> 0 <= y < gs -> 0 <= z < gs ->
  exists c, cell_at vd x y z = Some c.
Proof.
  rewrite wf_grid_spec. intros [Hgs [Hlen Hpl]] Hx Hy Hz.
  unfold cell_at.
  destruct (zlookup_in_range vd x) as [plane [-> Hp]]; [lia|].
  destruct (Hpl plane Hp) as [Hlp Hrow].
  destruct (zlookup_in_range plane y) as [row [-> Hr]]; [lia|].
  specialize (Hrow row Hr).
  destruct (zlookup_in_range row z) as [c [-> _]]; [lia|].
  eauto.
Qed.

Lemma out_of_bounds_false gs x y z :
  out_of_bounds gs x y z = false <-> 0 <= x < gs /\ 0 <= y < gs /\ 0 <= z < gs.
Proof.
  unfold out_of_bounds. rewrite !orb_false_iff, !Z.ltb_ge, !Z.leb_gt. lia.
Qed.

Lemma get_wf st vd x y z :
  voxelData st = Some vd -> wf_grid (gridSize st) vd = true ->
  getVoxelColor st x y z =
    Ok (if out_of_bounds (gridSize st) x y z then None
        else match cell_at vd x y z with Some c => c | None => None end).
Proof.
  intros Hvd Hwf. unfold getVoxelColor. rewrite Hvd.
  destruct (out_of_bounds (gridSize st) x y z) eqn:Hob; [reflexivity|].
  apply out_of_bounds_false in Hob as (Hx & Hy & Hz).
  destruct (cell_at_wf _ _ x y z Hwf Hx Hy Hz) as [c Hc].
  rewrite Hc. unfold cell_at in Hc.
  destruct (zlookup vd x) as [plane|]; [|discriminate].
  destruct (zlookup plane y) as [row|]; [|discriminate].
  rewrite Hc. reflexivity.
Qed.

Lemma get_wf_ok st x y z :
  wf_state st = true -> exists c, getVoxelColor st x y z = Ok c.
Proof.
  unfold wf_state. destruct (voxelData st) as [vd|] eqn:Hvd; [|discriminate].
  intros Hwf. eexists. eapply get_wf; eauto.
Qed.

(** ** [generateVoxelGeometry] as the list of faces it emits *)

Lemma extends_refl off b : extends off b b [].
Proof. unfold extends. simpl. rewrite !app_nil_r. repeat split; lia. Qed.

Lemma extends_trans off b1 b2 b3 l1 l2 :
  extends off b1 b2 l1 -> extends off b2 b3 l2 -> extends off b1 b3 (l1 ++ l2).
Proof.
  unfold extends. intros (P1 & N1 & C1 & I1) (P2 & N2 & C2 & I2).
  rewrite !flat_map_app, !length_app.
  split; [rewrite P2, P1, app_assoc; reflexivity|].
  split; [rewrite N2, N1, app_assoc; reflexivity|].
  split; lia.
Qed.

Lemma fold_push c off x y z d cs acc :
  let acc' := fold_left (push_vertex c off x y z d) cs acc in
  positions acc' = positions acc ++ flat_map (vertex_position off x y z) cs /\
  normals acc' = normals acc ++ flat_map (fun _ => dir_list d) cs /\
  length (colors acc') = (length (colors acc) + 3 * length cs)%nat /\
  indices acc' = indices acc.
Proof.
  revert acc. induction cs as [|p cs IH]; intros acc; simpl.
  - rewrite !app_nil_r. auto.
  - destruct (IH (push_vertex c off x y z d acc p)) as (P & N & C & I).
    simpl in *. rewrite P, N, C, I, <- !app_assoc.
    repeat split; try reflexivity.
    rewrite length_app. destruct c as [[r g] b]. simpl. lia.
Qed.

Lemma VoxelFaces_corners f : In f VoxelFaces -> length (corners f) = 4%nat.
Proof. simpl. intros H. repeat destruct H as [<-|H]; try reflexivity. contradiction. Qed.

Section MesherProofs.

Variable color_set : rgb -> string -> option rgb.

Lemma emit_face_ext st c off x y z acc f :
  wf_state st = true -> In f VoxelFaces ->
  exists acc', emit_face st c off x y z acc f = Ok acc' /\
    extends off acc acc'
      (if res_truthy (neighbor st x y z f) then [] else [(x, y, z, f)]).
Proof.
  intros Hwf Hf. unfold emit_face, neighbor.
  destruct (dir f) as [[dx dy] dz] eqn:Hd.
  destruct (get_wf_ok st (x + dx) (y + dy) (z + dz) Hwf) as [nc Hnc].
  rewrite Hnc. simpl.
  destruct (truthy nc).
  - eexists. split; [reflexivity|]. apply extends_refl.
  - eexists. split; [reflexivity|].
    destruct (fold_push c off x y z (dx, dy, dz) (corners f) acc) as (P & N & C & I).
    unfold extends. simpl. rewrite P, N, C, I, !app_nil_r, Hd.
    rewrite (VoxelFaces_corners f Hf). rewrite length_app. simpl.
    repeat split; lia.
Qed.

Lemma visit_cell_ext st off b tc x y z :
  wf_state st = true ->
  exists acc', visit_cell color_set st off (b, tc) x y z = Ok acc' /\
    extends off b (fst acc') (cell_faces st x y z).
Proof.
  intros Hwf. unfold visit_cell, cell_faces.
  destruct (get_wf_ok st x y z Hwf) as [c Hc]. rewrite Hc.
  cbn [res_bind res_truthy truthy].
  destruct c as [[|a s]|].
  - eexists. split; [reflexivity|]. apply extends_refl.
  - cbv zeta.
    set (tc' := match color_set tc (String a s) with Some c => c | None => green end).
    destruct (foldM_flat (fun b b' fl => extends off b b' fl)
                (emit_face st tc' off x y z)
                (fun f => if res_truthy (neighbor st x y z f) then [] else [(x, y, z, f)])
                VoxelFaces b) as [b' [Hb' Hext]].
    + apply extends_refl.
    + apply extends_trans.
    + intros acc f Hf. apply emit_face_ext; assumption.
    + rewrite Hb'. cbn [res_bind]. eexists. split; [reflexivity|]. exact Hext.
  - eexists. split; [reflexivity|]. apply extends_refl.
Qed.

Lemma generateVoxelGeometry_faces st :
  wf_state st = true ->
  exists b, generateVoxelGeometry color_set st = Ok b /\
    extends (centerOffset (gridSize st)) empty_buf b (face_list st).
Proof.
  intros Hwf. unfold generateVoxelGeometry, face_list.
  assert (Hvd := Hwf). unfold wf_state in Hvd.
  destruct (voxelData st) as [vd|]; [|discriminate].
  set (gs := gridSize st). set (off := centerOffset gs).
  set (R := fun (a a' : Buf * rgb) fl => extends off (fst a) (fst a') fl).
  assert (Hr : forall a, R a a []) by (intros; apply extends_refl).
  assert (Ht : forall a1 a2 a3 l1 l2, R a1 a2 l1 -> R a2 a3 l2 -> R a1 a3 (l1 ++ l2))
    by (intros; eapply extends_trans; eauto).
  edestruct (foldM_flat R
    (fun acc y => foldM (fun acc z =>
       foldM (fun acc x => visit_cell color_set st off acc x y z) (zrange gs) acc)
       (zrange gs) acc)
    (fun y => flat_map (fun z => flat_map (fun x => cell_faces st x y z)
       (zrange gs)) (zrange gs))
    (zrange gs) (empty_buf, white)) as [r [Hr' Hext]]; [exact Hr|exact Ht| |].
  - intros acc y _.
    apply (foldM_flat R); [exact Hr|exact Ht|].
    intros acc' z _.
    apply (foldM_flat R); [exact Hr|exact Ht|].
    intros [b tc] x _.
    destruct (visit_cell_ext st off b tc x y z Hwf) as [a' [Ha' He]].
    exists a'. split; [exact Ha'|exact He].
  - rewrite Hr'. simpl. eexists. split; [reflexivity|exact Hext].
Qed.

End MesherProofs.

(** ** The buffer invariant *)

Lemma buf_inv_empty : buf_inv empty_buf.
Proof. exists 0%nat. simpl. repeat split; auto. exists 0%nat. reflexivity. Qed.

Lemma emit_face_inv st c off x y z acc f acc' :
  In f VoxelFaces -> buf_inv acc -> emit_face st c off x y z acc f = Ok acc' ->
  buf_inv acc'.
Proof.
  intros Hf [n (HP & HN & HC & [m HI] & Hidx)]. unfold emit_face.
  destruct (dir f) as [[dx dy] dz] eqn:Hd.
  destruct (getVoxelColor st (x + dx) (y + dy) (z + dz)) as [nc|e]; simpl; [|discriminate].
  destruct (truthy nc).
  - intros H. injection H as <-. exists n. repeat split; eauto.
  - intros H. injection H as <-.
    destruct (fold_push c off x y z (dx, dy, dz) (corners f) acc) as (P & N & C & I).
    rewrite (VoxelFaces_corners f Hf) in C.
    exists (n + 4)%nat. simpl. rewrite P, N, C, I, !length_app, HP, HN, HC.
    assert (Hv : forall p, length (vertex_position off x y z p) = 3%nat)
      by (intros [[p0 p1] p2]; reflexivity).
    assert (Hl : length (flat_map (vertex_position off x y z) (corners f)) = 12%nat).
    { pose proof (VoxelFaces_corners f Hf) as H4.
      destruct (corners f) as [|p1 [|p2 [|p3 [|p4 [|p5 l]]]]]; try discriminate.
      simpl. rewrite !length_app, !Hv. reflexivity. }
    assert (Hn : length (flat_map (fun _ : Z * Z * Z => dir_list (dx, dy, dz)) (corners f)) = 12%nat).
    { pose proof (VoxelFaces_corners f Hf) as H4.
      destruct (corners f) as [|p1 [|p2 [|p3 [|p4 [|p5 l]]]]]; try discriminate.
      reflexivity. }
    rewrite Hl, Hn.
    split; [lia|]. split; [lia|]. split; [lia|].
    split; [exists (m + 1)%nat; rewrite HI; simpl; lia|].
    apply Forall_app. split.
    + eapply Forall_impl; [exact Hidx|]. simpl. intros i Hi. lia.
    + assert (Hq : Z.of_nat (3 * n) / 3 = Z.of_nat n).
      { rewrite Nat2Z.inj_mul, Z.mul_comm, Z.div_mul; lia. }
      rewrite Hq. repeat (apply List.Forall_cons; [cbv beta; lia|]). apply List.Forall_nil.
Qed.

Lemma generateVoxelGeometry_inv color_set st b :
  generateVoxelGeometry color_set st = Ok b -> buf_inv b.
Proof.
  unfold generateVoxelGeometry.
  destruct (voxelData st) as [vd|]; [|discriminate].
  destruct (foldM _ _ _) as [[b' tc]|e] eqn:Hr; simpl; [|discriminate].
  intros H. injection H as <-.
  set (P := fun a : Buf * rgb => buf_inv (fst a)).
  change (P (b', tc)). revert Hr. apply foldM_inv; [exact buf_inv_empty|].
  intros a y a' _ Ha. apply foldM_inv; [exact Ha|].
  intros a0 z a0' _ Ha0. apply foldM_inv; [exact Ha0|].
  intros [b0 tc0] x a1 _ Hb0. unfold visit_cell.
  destruct (getVoxelColor st x y z) as [[[|ch s]|]|e]; cbn [res_bind]; try discriminate;
    try (intros H; injection H as <-; exact Hb0).
  cbv zeta. set (tc1 := match color_set tc0 (String ch s) with Some c => c | None => green end).
  destruct (foldM (emit_face st tc1 (centerOffset (gridSize st)) x y z) VoxelFaces b0)
    as [b1|e] eqn:Hf; cbn [res_bind]; [|discriminate].
  intros H. injection H as <-. unfold P. simpl.
  revert Hf. apply foldM_inv; [exact Hb0|].
  intros acc f acc' Hin Hacc. apply emit_face_inv; assumption.
Qed.

(** ** Locating a face in the buffer *)

Lemma block_flat_map {A B} (g : A -> list B) (w k : nat) (l : list A) :
  (forall a, In a l -> length (g a) = w) ->
  block w k (flat_map g l) = match nth_error l k with Some a => g a | None => [] end.
Proof.
  unfold block. revert k. induction l as [|a l IH]; intros k Hl.
  - destruct k; simpl; rewrite ?drop_nil, ?take_nil; reflexivity.
  - destruct k as [|k]; simpl.
    + rewrite Nat.mul_0_r, drop_0, <- (Hl a (or_introl eq_refl)), take_app_length. reflexivity.
    + replace (w * S k)%nat with (length (g a) + w * k)%nat
        by (rewrite (Hl a (or_introl eq_refl)); lia).
      rewrite <- drop_drop, drop_app_length.
      apply IH. intros a' Ha'. apply Hl. right. exact Ha'.
Qed.

Lemma q_cancel (a b : Z) (off : Q) :
  (inject_Z a - off)%Q = (inject_Z b - off)%Q -> a = b.
Proof.
  intros H. apply inject_Z_injective.
  assert (Hq : (inject_Z a - off == inject_Z b - off)%Q) by (rewrite H; reflexivity).
  unfold Qminus in Hq. apply Qplus_inj_r in Hq. exact Hq.
Qed.

Lemma face_positions_length off k :
  In (snd k) VoxelFaces -> length (face_positions off k) = 12%nat.
Proof.
  destruct k as [[[x y] z] f]. simpl. intros Hf.
  repeat destruct Hf as [<-|Hf]; try contradiction; reflexivity.
Qed.

Lemma face_normals_length k :
  In (snd k) VoxelFaces -> length (face_normals k) = 12%nat.
Proof.
  destruct k as [[[x y] z] f]. simpl. intros Hf.
  repeat destruct Hf as [<-|Hf]; try contradiction; reflexivity.
Qed.

Lemma face_key_inj off x y z f x' y' z' f' :
  In f VoxelFaces -> In f' VoxelFaces ->
  face_positions off (x, y, z, f) = face_positions off (x', y', z', f') ->
  face_normals (x, y, z, f) = face_normals (x', y', z', f') ->
  (x, y, z, f) = (x', y', z', f').
Proof.
  intros Hf Hf' Hp Hn.
  assert (f' = f) as ->.
  { simpl in Hf, Hf'.
    repeat destruct Hf as [<-|Hf]; repeat destruct Hf' as [<-|Hf'];
      try contradiction; try reflexivity; simpl in Hn; discriminate. }
  pose proof (f_equal (fun l => nth 0 l 0%Q) Hp) as E1.
  pose proof (f_equal (fun l => nth 1 l 0%Q) Hp) as E2.
  pose proof (f_equal (fun l => nth 2 l 0%Q) Hp) as E3.
  simpl in Hf. repeat destruct Hf as [<-|Hf]; try contradiction;
    cbn -[Qminus inject_Z] in E1, E2, E3;
    apply q_cancel in E1, E2, E3; repeat f_equal; lia.
Qed.

Lemma in_face_list st x y z f :
  In (x, y, z, f) (face_list st) <->
  (0 <= x < gridSize st /\ 0 <= y < gridSize st /\ 0 <= z < gridSize st) /\
  res_truthy (getVoxelColor st x y z) = true /\ In f VoxelFaces /\
  res_truthy (neighbor st x y z f) = false.
Proof.
  unfold face_list. rewrite in_flat_map. split.
  - intros [y' [Hy Hin]]. rewrite in_flat_map in Hin. destruct Hin as [z' [Hz Hin]].
    rewrite in_flat_map in Hin. destruct Hin as [x' [Hx Hin]].
    unfold cell_faces in Hin.
    destruct (res_truthy (getVoxelColor st x' y' z')) eqn:Ht; [|contradiction].
    rewrite in_flat_map in Hin. destruct Hin as [f' [Hf' Hin]].
    destruct (res_truthy (neighbor st x' y' z' f')) eqn:Hn; [contradiction|].
    destruct Hin as [Heq|[]]. injection Heq as <- <- <- <-.
    rewrite in_zrange in Hx, Hy, Hz. auto.
  - intros [(Hx & Hy & Hz) [Ht [Hf Hn]]].
    exists y. split; [apply in_zrange; exact Hy|].
    apply in_flat_map. exists z. split; [apply in_zrange; exact Hz|].
    apply in_flat_map. exists x. split; [apply in_zrange; exact Hx|].
    unfold cell_faces. rewrite Ht. apply in_flat_map. exists f. split; [exact Hf|].
    rewrite Hn. left. reflexivity.
Qed.

Lemma face_list_faces st k : In k (face_list st) -> In (snd k) VoxelFaces.
Proof.
  destruct k as [[[x y] z] f]. rewrite in_face_list. simpl. tauto.
Qed.

Lemma has_face_iff st b x y z f :
  extends (centerOffset (gridSize st)) empty_buf b (face_list st) -> In f VoxelFaces ->
  has_face (gridSize st) b x y z f <-> In (x, y, z, f) (face_list st).
Proof.
  intros (HP & HN & _) Hf. simpl in HP, HN. unfold has_face. rewrite HP, HN.
  set (off := centerOffset (gridSize st)).
  assert (Hbp : forall k, block 12 k (flat_map (face_positions off) (face_list st)) =
            match nth_error (face_list st) k with Some a => face_positions off a | None => [] end).
  { intros k. apply block_flat_map.
    intros a Ha. apply face_positions_length, (face_list_faces st). exact Ha. }
  assert (Hbn : forall k, block 12 k (flat_map face_normals (face_list st)) =
            match nth_error (face_list st) k with Some a => face_normals a | None => [] end).
  { intros k. apply block_flat_map.
    intros a Ha. apply face_normals_length, (face_list_faces st). exact Ha. }
  split.
  - intros [k [Hp Hn]]. rewrite Hbp in Hp. rewrite Hbn in Hn.
    destruct (nth_error (face_list st) k) as [[[[x' y'] z'] f']|] eqn:Hk.
    + assert (Hin : In (x', y', z', f') (face_list st)) by (eapply nth_error_In; eauto).
      pose proof (face_list_faces _ _ Hin) as Hf'. simpl in Hf'.
      rewrite (face_key_inj off x' y' z' f' x y z f Hf' Hf Hp Hn) in Hin. exact Hin.
    + pose proof (face_positions_length off (x, y, z, f) Hf) as Hl.
      rewrite <- Hp in Hl. discriminate.
  - intros Hin. destruct (In_nth_error _ _ Hin) as [k Hk].
    exists k. rewrite Hbp, Hbn, Hk. auto.
Qed.

Lemma get_truthy_in_bounds st x y z :
  res_truthy (getVoxelColor st x y z) = true ->
  0 <= x < gridSize st /\ 0 <= y < gridSize st /\ 0 <= z < gridSize st.
Proof.
  unfold getVoxelColor. destruct (voxelData st); [|discriminate].
  destruct (out_of_bounds (gridSize st) x y z) eqn:Hob; [discriminate|].
  intros _. apply out_of_bounds_false. exact Hob.
Qed.

(** ** Claims about [getVoxelColor] and [generateVoxelGeometry] *)

(** C9: on a well-formed grid, [getVoxelColor] never throws; it returns
    [null] when a coordinate is outside [[0, gridSize)], and the stored
    value ([null] included) otherwise. *)
Theorem getVoxelColor_never_throws (st : WorkerState) (x y z : Z) :
  wf_state st = true ->
  (exists c, getVoxelColor st x y z = Ok c) /\
  ((x < 0 \/ gridSize st <= x \/ y < 0 \/ gridSize st <= y \/ z < 0 \/ gridSize st <= z) ->
     getVoxelColor st x y z = Ok None) /\
  ((0 <= x < gridSize st /\ 0 <= y < gridSize st /\ 0 <= z < gridSize st) ->
     exists vd c, voxelData st = Some vd /\ cell_at vd x y z = Some c /\
                  getVoxelColor st x y z = Ok c).
Proof.
  intros Hwf. split; [apply get_wf_ok; exact Hwf|].
  unfold wf_state in Hwf. destruct (voxelData st) as [vd|] eqn:Hvd; [|discriminate].
  rewrite (get_wf st vd x y z Hvd Hwf). split.
  - intros Hout. destruct (out_of_bounds (gridSize st) x y z) eqn:Hob; [reflexivity|].
    apply out_of_bounds_false in Hob. lia.
  - intros Hin. pose proof Hin as Hin'. rewrite <- out_of_bounds_false in Hin'.
    rewrite Hin'. destruct Hin as (Hx & Hy & Hz).
    destruct (cell_at_wf _ _ x y z Hwf Hx Hy Hz) as [c Hc].
    exists vd, c. rewrite Hc. auto.
Qed.

Lemma getVoxelColor_never_throws_witness :
  let st := state_of 2 (one_cell (0, 0, 0) (Some "red"%string)) in
  wf_state st = true /\
  ((exists c, getVoxelColor st 0 0 0 = Ok c) /\
   ((0 < 0 \/ gridSize st <= 0 \/ 0 < 0 \/ gridSize st <= 0 \/ 0 < 0 \/ gridSize st <= 0) ->
      getVoxelColor st 0 0 0 = Ok None) /\
   ((0 <= 0 < gridSize st /\ 0 <= 0 < gridSize st /\ 0 <= 0 < gridSize st) ->
      exists vd c, voxelData st = Some vd /\ cell_at vd 0 0 0 = Some c /\
                   getVoxelColor st 0 0 0 = Ok c)).
Proof.
  cbv zeta. split; [vm_compute; reflexivity|].
  apply (getVoxelColor_never_throws (state_of 2 (one_cell (0, 0, 0) (Some "red"%string))) 0 0 0).
  vm_compute. reflexivity.
Defined.

(** C8: whenever [generateVoxelGeometry] returns, [positions], [normals]
    and [colors] all have three entries per vertex, [indices] has a
    multiple of 6 entries, and each index is a vertex offset. *)
Theorem generateVoxelGeometry_buffer_shape (color_set : rgb -> string -> option rgb)
    (st : WorkerState) (b : Buf) :
  generateVoxelGeometry color_set st = Ok b ->
  let vertex_count := (length (positions b) / 3)%nat in
  length (positions b) = (3 * vertex_count)%nat /\
  length (normals b) = (3 * vertex_count)%nat /\
  length (colors b) = (3 * vertex_count)%nat /\
  (length (indices b) mod 6 = 0)%nat /\
  Forall (fun i => 0 <= i < Z.of_nat vertex_count) (indices b).
Proof.
  intros H. destruct (generateVoxelGeometry_inv _ _ _ H)
    as [n (HP & HN & HC & [m HI] & Hidx)].
  cbv zeta. rewrite HP, HN, HC, HI.
  replace (3 * n / 3)%nat with n by (rewrite Nat.mul_comm, Nat.div_mul; lia).
  split; [reflexivity|]. split; [reflexivity|]. split; [reflexivity|].
  split; [rewrite Nat.mul_comm; apply Nat.Div0.mod_mul|exact Hidx].
Qed.

Lemma generateVoxelGeometry_buffer_shape_witness :
  let cs := fun (_ : rgb) (_ : string) => @None rgb in
  let st := state_of 2 (one_cell (0, 0, 0) (Some "red"%string)) in
  exists b, generateVoxelGeometry cs st = Ok b /\
  let vertex_count := (length (positions b) / 3)%nat in
  length (positions b) = (3 * vertex_count)%nat /\
  length (normals b) = (3 * vertex_count)%nat /\
  length (colors b) = (3 * vertex_count)%nat /\
  (length (indices b) mod 6 = 0)%nat /\
  Forall (fun i => 0 <= i < Z.of_nat vertex_count) (indices b).
Proof.
  cbv zeta. eexists. split; [vm_compute; reflexivity|].
  apply (generateVoxelGeometry_buffer_shape (fun _ _ => None)
           (state_of 2 (one_cell (0, 0, 0) (Some "red"%string)))).
  vm_compute. reflexivity.
Defined.

(** C1, as stated, fails: a cell holding [""] is present ([getVoxelColor]
    returns [""], not [null]), all its neighbours are absent, and yet none
    of its faces is emitted. *)
Lemma generateVoxelGeometry_empty_token_cell :
  let st := state_of 3 (one_cell (1, 1, 1) (Some ""%string)) in
  getVoxelColor st 1 1 1 = Ok (Some ""%string) /\
  (forall f, In f VoxelFaces -> neighbor st 1 1 1 f = Ok None) /\
  exists b, generateVoxelGeometry (fun _ _ => None) st = Ok b /\
    forall f, In f VoxelFaces -> ~ has_face 3 b 1 1 1 f.
Proof.
  cbv zeta. split; [vm_compute; reflexivity|]. split.
  - intros f Hf. simpl in Hf.
    repeat destruct Hf as [<-|Hf]; try contradiction; vm_compute; reflexivity.
  - eexists. split; [vm_compute; reflexivity|].
    intros f Hf [k [Hp _]]. unfold block in Hp. simpl in Hp.
    rewrite drop_nil, take_nil in Hp.
    simpl in Hf. repeat destruct Hf as [<-|Hf]; try contradiction; discriminate.
Qed.

(** C1 (amended): on a well-formed grid, for every cell holding a
    non-empty colour token, face [f] is emitted iff the neighbour in
    direction [f] is [null], [""] or out of bounds; so for two adjacent
    cells holding non-empty tokens, neither emits the face they share. *)
Theorem generateVoxelGeometry_culls_faces (color_set : rgb -> string -> option rgb)
    (st : WorkerState) :
  wf_state st = true ->
  exists b, generateVoxelGeometry color_set st = Ok b /\
    (forall x y z f, In f VoxelFaces -> res_truthy (getVoxelColor st x y z) = true ->
       (has_face (gridSize st) b x y z f <-> res_truthy (neighbor st x y z f) = false)) /\
    (forall x y z f f', In f VoxelFaces -> In f' VoxelFaces ->
       res_truthy (getVoxelColor st x y z) = true ->
       let '(dx, dy, dz) := dir f in
       dir f' = (- dx, - dy, - dz) ->
       res_truthy (getVoxelColor st (x + dx) (y + dy) (z + dz)) = true ->
       ~ has_face (gridSize st) b x y z f /\
       ~ has_face (gridSize st) b (x + dx) (y + dy) (z + dz) f').
Proof.
  intros Hwf.
  destruct (generateVoxelGeometry_faces color_set st Hwf) as [b [Hb Hext]].
  exists b. split; [exact Hb|]. split.
  - intros x y z f Hf Ht. rewrite (has_face_iff st b x y z f Hext Hf), in_face_list.
    pose proof (get_truthy_in_bounds st x y z Ht). tauto.
  - intros x y z f f' Hf Hf' Ht.
    destruct (dir f) as [[dx dy] dz] eqn:Hd. intros Hd' Ht'.
    rewrite (has_face_iff st b x y z f Hext Hf), (has_face_iff st b _ _ _ f' Hext Hf').
    rewrite !in_face_list. unfold neighbor. rewrite Hd, Hd', Ht'.
    replace (x + dx + - dx) with x by lia.
    replace (y + dy + - dy) with y by lia.
    replace (z + dz + - dz) with z by lia.
    rewrite Ht. split; intros (_ & _ & _ & H); discriminate.
Qed.

Lemma generateVoxelGeometry_culls_faces_witness :
  let st := state_of 2 (one_cell (0, 0, 0) (Some "red"%string)) in
  wf_state st = true /\
  exists b, generateVoxelGeometry (fun _ _ => None) st = Ok b /\
    (forall x y z f, In f VoxelFaces -> res_truthy (getVoxelColor st x y z) = true ->
       (has_face (gridSize st) b x y z f <-> res_truthy (neighbor st x y z f) = false)) /\
    (forall x y z f f', In f VoxelFaces -> In f' VoxelFaces ->
       res_truthy (getVoxelColor st x y z) = true ->
       let '(dx, dy, dz) := dir f in
       dir f' = (- dx, - dy, - dz) ->
       res_truthy (getVoxelColor st (x + dx) (y + dy) (z + dz)) = true ->
       ~ has_face (gridSize st) b x y z f /\
       ~ has_face (gridSize st) b (x + dx) (y + dy) (z + dz) f').
Proof.
  cbv zeta. split; [vm_compute; reflexivity|].
  apply (generateVoxelGeometry_culls_faces (fun _ _ => None)
           (state_of 2 (one_cell (0, 0, 0) (Some "red"%string)))).
  vm_compute. reflexivity.
Defined.

(** ** Writing a cell *)

Lemma lookup_map_list {A B} (g : A -> B) (l : list A) (i : nat) :
  map g l !! i = option_map g (l !! i).
Proof. revert i. induction l as [|a l IH]; intros [|i]; simpl; auto. Qed.

Lemma lookup_seq_at (s n i : nat) :
  seq s n !! i = if (i <? n)%nat then Some (s + i)%nat else None.
Proof.
  revert s i. induction n as [|n IH]; intros s [|i]; simpl; try reflexivity.
  - rewrite Nat.add_0_r. reflexivity.
  - rewrite IH. change (S i <? S n)%nat with (i <? n)%nat.
    destruct (i <? n)%nat; [f_equal; lia|reflexivity].
Qed.

Lemma zlookup_map_zrange {A} (g : Z -> A) (n i : Z) :
  zlookup (map g (zrange n)) i = if decide (0 <= i < n) then Some (g i) else None.
Proof.
  unfold zlookup, zrange. rewrite map_map, lookup_map_list, lookup_seq_at.
  destruct (Z.ltb_spec i 0); destruct (decide (0 <= i < n)); try lia; auto.
  all: destruct (Nat.ltb_spec (Z.to_nat i) (Z.to_nat n)); simpl; try reflexivity; try lia.
  f_equal. f_equal. lia.
Qed.

Lemma getVoxelColor_state_of gs f x y z :
  getVoxelColor (state_of gs f) x y z =
    Ok (if out_of_bounds gs x y z then None else f x y z).
Proof.
  unfold getVoxelColor, state_of. simpl.
  destruct (out_of_bounds gs x y z) eqn:Hob; [reflexivity|].
  apply out_of_bounds_false in Hob as (Hx & Hy & Hz).
  unfold grid_of. rewrite zlookup_map_zrange. destruct (decide _); [|lia].
  rewrite zlookup_map_zrange. destruct (decide _); [|lia].
  rewrite zlookup_map_zrange. destruct (decide _); [|lia].
  reflexivity.
Qed.

Lemma wf_grid_lookup gs vd :
  wf_grid gs vd = true <->
  0 <= gs /\ length vd = Z.to_nat gs /\
  (forall (i : nat) plane, vd !! i = Some plane -> length plane = Z.to_nat gs /\
     forall (j : nat) row, plane !! j = Some row -> length row = Z.to_nat gs).
Proof.
  rewrite wf_grid_spec. split.
  - intros (H1 & H2 & H3). split; [exact H1|]. split; [exact H2|].
    intros i plane Hi. destruct (H3 plane) as [Hl Hr].
    { apply list_elem_of_In. eapply list_elem_of_lookup_2. exact Hi. }
    split; [exact Hl|]. intros j row Hj. apply Hr.
    apply list_elem_of_In. eapply list_elem_of_lookup_2. exact Hj.
  - intros (H1 & H2 & H3). split; [exact H1|]. split; [exact H2|].
    intros plane Hp. apply list_elem_of_In, list_elem_of_lookup in Hp as [i Hi].
    destruct (H3 i plane Hi) as [Hl Hr]. split; [exact Hl|].
    intros row Hrow. apply list_elem_of_In, list_elem_of_lookup in Hrow as [j Hj].
    eapply Hr. exact Hj.
Qed.

Lemma zlookup_insert {A} (l : list A) (i j : Z) (a : A) :
  0 <= i < Z.of_nat (length l) ->
  zlookup (<[Z.to_nat i := a]> l) j = if decide (j = i) then Some a else zlookup l j.
Proof.
  intros Hi. unfold zlookup.
  destruct (decide (j = i)) as [->|Hne].
  - destruct (Z.ltb_spec i 0); [lia|]. apply list_lookup_insert_eq. lia.
  - destruct (Z.ltb_spec j 0); [reflexivity|]. apply list_lookup_insert_ne. lia.
Qed.

Lemma set_cell_spec gs vd x y z v :
  wf_grid gs vd = true -> 0 <= x < gs -> 0 <= y < gs -> 0 <= z < gs ->
  exists vd', set_cell vd x y z v = Ok vd' /\ wf_grid gs vd' = true /\
    forall x' y' z', cell_at vd' x' y' z' =
      if decide ((x', y', z') = (x, y, z)) then Some v else cell_at vd x' y' z'.
Proof.
  intros Hwf Hx Hy Hz. pose proof Hwf as Hwf'.
  apply wf_grid_lookup in Hwf' as (Hgs & Hlen & Hpl).
  unfold set_cell.
  destruct (zlookup_in_range vd x) as [plane [Hp _]]; [lia|].
  assert (Hp' : vd !! Z.to_nat x = Some plane)
    by (unfold zlookup in Hp; destruct (Z.ltb_spec x 0); [lia|exact Hp]).
  destruct (Hpl _ _ Hp') as [Hlp Hrows].
  destruct (zlookup_in_range plane y) as [row [Hr _]]; [lia|].
  assert (Hr' : plane !! Z.to_nat y = Some row)
    by (unfold zlookup in Hr; destruct (Z.ltb_spec y 0); [lia|exact Hr]).
  pose proof (Hrows _ _ Hr') as Hlr.
  rewrite Hp, Hr.
  assert (Hset : js_array_set row z v = <[Z.to_nat z := v]> row).
  { unfold js_array_set. destruct (Z.ltb_spec z 0); [lia|].
    destruct (Nat.ltb_spec (Z.to_nat z) (length row)); [reflexivity|lia]. }
  rewrite Hset. eexists. split; [reflexivity|]. split.
  - apply wf_grid_lookup. split; [exact Hgs|]. rewrite length_insert. split; [exact Hlen|].
    intros i pl Hi. apply list_lookup_insert_Some in Hi as [(<- & <- & _)|(_ & Hi)].
    + rewrite length_insert. split; [exact Hlp|].
      intros j rw Hj. apply list_lookup_insert_Some in Hj as [(<- & <- & _)|(_ & Hj)].
      * rewrite length_insert. exact Hlr.
      * eapply Hrows. exact Hj.
    + eapply Hpl. exact Hi.
  - intros x' y' z'. unfold cell_at.
    rewrite zlookup_insert by lia.
    destruct (decide (x' = x)) as [->|Hnx].
    + rewrite Hp. rewrite zlookup_insert by lia.
      destruct (decide (y' = y)) as [->|Hny].
      * rewrite Hr. rewrite zlookup_insert by lia.
        destruct (decide (z' = z)) as [->|Hnz].
        -- destruct (decide _); congruence.
        -- destruct (decide _); [congruence|reflexivity].
      * destruct (decide _); [congruence|reflexivity].
    + destruct (decide _); [congruence|reflexivity].
Qed.

(** ** The mesher sees a cell only through its truthiness *)

Lemma foldM_ext {A B} (f g : A -> B -> res A) (l : list B) (a : A) :
  (forall a x, f a x = g a x) -> foldM f l a = foldM g l a.
Proof.
  intros H. revert a. induction l as [|x l IH]; intros a; simpl; [reflexivity|].
  rewrite H. destruct (g a x); simpl; auto.
Qed.

Section MesherExt.

Variable color_set : rgb -> string -> option rgb.
Variables st st' : WorkerState.
Hypothesis Hread : forall x y z,
  falsy_to_null (getVoxelColor st x y z) = falsy_to_null (getVoxelColor st' x y z).

Lemma emit_face_cong c off x y z acc f :
  emit_face st c off x y z acc f = emit_face st' c off x y z acc f.
Proof.
  unfold emit_face. destruct (dir f) as [[dx dy] dz].
  pose proof (Hread (x + dx) (y + dy) (z + dz)) as H.
  destruct (getVoxelColor st (x + dx) (y + dy) (z + dz)) as [[[|? ?]|]|?];
    destruct (getVoxelColor st' (x + dx) (y + dy) (z + dz)) as [[[|? ?]|]|?];
    simpl in H; try discriminate; try injection H as <- <-; try injection H as <-;
    reflexivity.
Qed.

Lemma visit_cell_cong off acc x y z :
  visit_cell color_set st off acc x y z = visit_cell color_set st' off acc x y z.
Proof.
  unfold visit_cell. destruct acc as [b tc].
  pose proof (Hread x y z) as H.
  destruct (getVoxelColor st x y z) as [[[|? ?]|]|?];
    destruct (getVoxelColor st' x y z) as [[[|? ?]|]|?];
    simpl in H; try discriminate; try injection H as <- <-; try injection H as <-;
    cbn [res_bind]; try reflexivity.
  erewrite foldM_ext; [reflexivity|].
  intros; apply emit_face_cong.
Qed.

Lemma generateVoxelGeometry_cong :
  (voxelData st = None <-> voxelData st' = None) -> gridSize st = gridSize st' ->
  generateVoxelGeometry color_set st = generateVoxelGeometry color_set st'.
Proof.
  intros Hvd Hgs. unfold generateVoxelGeometry. rewrite <- Hgs.
  destruct (voxelData st), (voxelData st'); try reflexivity;
    try (destruct Hvd as [H1 H2]; discriminate (H2 eq_refl) || discriminate (H1 eq_refl)).
  f_equal. apply foldM_ext. intros a y'. apply foldM_ext. intros a0 z'.
  apply foldM_ext. intros a1 x'. apply visit_cell_cong.
Qed.

End MesherExt.

(** ** One occupied cell; a cell holding [""] *)

Lemma flat_map_nil_l {A B} (g : A -> list B) (l : list A) :
  (forall i, In i l -> g i = []) -> flat_map g l = [].
Proof.
  induction l as [|a l IH]; intros H; simpl; [reflexivity|].
  rewrite H by (left; reflexivity). apply IH. intros i Hi. apply H. right. exact Hi.
Qed.

Lemma flat_map_single {A B} (g : A -> list B) (l : list A) (i0 : A) :
  List.NoDup l -> In i0 l -> (forall i, In i l -> i <> i0 -> g i = []) ->
  flat_map g l = g i0.
Proof.
  induction l as [|a l IH]; intros Hnd Hin H; [contradiction|].
  inversion Hnd as [|? ? Hnot Hnd']. subst. simpl.
  destruct Hin as [->|Hin].
  - rewrite flat_map_nil_l; [apply app_nil_r|].
    intros i Hi. apply H; [right; exact Hi|]. intros ->. contradiction.
  - rewrite H; [|left; reflexivity|intros ->; contradiction].
    apply IH; auto. intros i Hi. apply H. right. exact Hi.
Qed.

Lemma flat_map_length_const {A B} (g : A -> list B) (w : nat) (l : list A) :
  (forall a, In a l -> length (g a) = w) -> length (flat_map g l) = (w * length l)%nat.
Proof.
  induction l as [|a l IH]; intros H; simpl; [lia|].
  rewrite length_app, H by (left; reflexivity).
  rewrite IH by (intros a' Ha'; apply H; right; exact Ha'). lia.
Qed.

Lemma flat_map_all_visible {A B} (P : A -> bool) (h : A -> B) (l : list A) :
  (forall a, In a l -> P a = false) ->
  flat_map (fun a => if P a then [] else [h a]) l = map h l.
Proof.
  induction l as [|a l IH]; intros H; simpl; [reflexivity|].
  rewrite H by (left; reflexivity). simpl. f_equal.
  apply IH. intros a' Ha'. apply H. right. exact Ha'.
Qed.

(** C7, as stated, fails: in a 3-sided grid whose only present cell holds
    [""], no face is emitted. *)
Lemma generateVoxelGeometry_single_empty_token :
  let st := state_of 3 (one_cell (1, 1, 1) (Some ""%string)) in
  getVoxelColor st 1 1 1 = Ok (Some ""%string) /\
  (forall x y z, (x, y, z) <> (1, 1, 1) -> getVoxelColor st x y z = Ok None) /\
  generateVoxelGeometry (fun _ _ => None) st = Ok empty_buf.
Proof.
  cbv zeta. split; [vm_compute; reflexivity|]. split.
  - intros x y z Hne. rewrite getVoxelColor_state_of. unfold one_cell.
    destruct (out_of_bounds 3 x y z); [reflexivity|].
    destruct (decide _); [contradiction|reflexivity].
  - vm_compute. reflexivity.
Qed.

(** C7 (amended): in a well-formed grid of side at least 3 where exactly
    one cell holds a non-empty colour token (every other cell is [null] or
    [""]), [generateVoxelGeometry] emits 6 faces: 24 vertices, so 72
    entries in each of [positions], [normals] and [colors], and 36 indices. *)
Theorem generateVoxelGeometry_single_voxel (color_set : rgb -> string -> option rgb)
    (st : WorkerState) (x0 y0 z0 : Z) :
  wf_state st = true -> 3 <= gridSize st ->
  res_truthy (getVoxelColor st x0 y0 z0) = true ->
  (forall x y z, (x, y, z) <> (x0, y0, z0) -> res_truthy (getVoxelColor st x y z) = false) ->
  exists b, generateVoxelGeometry color_set st = Ok b /\
    (length (positions b) / 3 = 24)%nat /\
    length (positions b) = 72%nat /\ length (normals b) = 72%nat /\
    length (colors b) = 72%nat /\ length (indices b) = 36%nat.
Proof.
  intros Hwf _ Ht Hother.
  destruct (generateVoxelGeometry_faces color_set st Hwf) as [b [Hb (HP & HN & HC & HI)]].
  destruct (get_truthy_in_bounds st x0 y0 z0 Ht) as (Hx & Hy & Hz).
  assert (Hnb : forall f, In f VoxelFaces -> res_truthy (neighbor st x0 y0 z0 f) = false).
  { intros f Hf. simpl in Hf.
    repeat destruct Hf as [<-|Hf]; try contradiction; cbn [neighbor dir];
      apply Hother; intros H; injection H; lia. }
  assert (Hfl : face_list st = map (fun f => (x0, y0, z0, f)) VoxelFaces).
  { unfold face_list.
    rewrite (flat_map_single _ _ y0 (NoDup_zrange _)); [|apply in_zrange; lia|].
    - rewrite (flat_map_single _ _ z0 (NoDup_zrange _)); [|apply in_zrange; lia|].
      + rewrite (flat_map_single _ _ x0 (NoDup_zrange _)); [|apply in_zrange; lia|].
        * unfold cell_faces. rewrite Ht. apply flat_map_all_visible. exact Hnb.
        * intros x _ Hne. unfold cell_faces. rewrite Hother; [reflexivity|].
          intros H. injection H. lia.
      + intros z _ Hne. apply flat_map_nil_l. intros x _. unfold cell_faces.
        rewrite Hother; [reflexivity|]. intros H. injection H. lia.
    - intros y _ Hne. apply flat_map_nil_l. intros z _. apply flat_map_nil_l.
      intros x _. unfold cell_faces.
      rewrite Hother; [reflexivity|]. intros H. injection H. lia. }
  rewrite Hfl in HP, HN, HC, HI. cbn [positions normals empty_buf app] in HP, HN. simpl in HC, HI.
  assert (Hlp : length (positions b) = 72%nat).
  { rewrite HP. rewrite (flat_map_length_const _ 12); [reflexivity|].
    intros k Hk. apply face_positions_length.
    apply in_map_iff in Hk as [f [<- Hf]]. exact Hf. }
  exists b. split; [exact Hb|]. rewrite Hlp. split; [reflexivity|].
  split; [reflexivity|]. split; [|split; [exact HC|exact HI]].
  rewrite HN. rewrite (flat_map_length_const _ 12); [reflexivity|].
  intros k Hk. apply face_normals_length.
  apply in_map_iff in Hk as [f [<- Hf]]. exact Hf.
Qed.

Lemma generateVoxelGeometry_single_voxel_witness :
  let st := state_of 3 (one_cell (1, 1, 1) (Some "red"%string)) in
  (wf_state st = true /\ 3 <= gridSize st /\
   res_truthy (getVoxelColor st 1 1 1) = true /\
   (forall x y z, (x, y, z) <> (1, 1, 1) -> res_truthy (getVoxelColor st x y z) = false)) /\
  exists b, generateVoxelGeometry (fun _ _ => None) st = Ok b /\
    (length (positions b) / 3 = 24)%nat /\
    length (positions b) = 72%nat /\ length (normals b) = 72%nat /\
    length (colors b) = 72%nat /\ length (indices b) = 36%nat.
Proof.
  cbv zeta.
  assert (Hother : forall x y z, (x, y, z) <> (1, 1, 1) ->
    res_truthy (getVoxelColor (state_of 3 (one_cell (1, 1, 1) (Some "red"%string))) x y z)
    = false).
  { intros x y z Hne. rewrite getVoxelColor_state_of. unfold one_cell.
    destruct (out_of_bounds 3 x y z); [reflexivity|].
    destruct (decide _); [contradiction|reflexivity]. }
  split; [split; [vm_compute; reflexivity|split; [simpl; lia|split; [vm_compute; reflexivity|exact Hother]]]|].
  apply (generateVoxelGeometry_single_voxel (fun _ _ => None)
           (state_of 3 (one_cell (1, 1, 1) (Some "red"%string))) 1 1 1);
    [vm_compute; reflexivity|simpl; lia|vm_compute; reflexivity|exact Hother].
Defined.

(** C10: a cell holding [""] reads as present ([getVoxelColor] returns
    [""]), yet [generateVoxelGeometry] treats it as absent: the geometry
    equals the one of the grid with that cell set to [null]; the cell emits
    no face, and every adjacent cell holding a non-empty token emits its
    face toward it. *)
Theorem generateVoxelGeometry_empty_token_is_absent
    (color_set : rgb -> string -> option rgb) (st : WorkerState) (x y z : Z) :
  wf_state st = true -> getVoxelColor st x y z = Ok (Some ""%string) ->
  exists vd vd', voxelData st = Some vd /\ set_cell vd x y z None = Ok vd' /\
    generateVoxelGeometry color_set (with_voxelData st vd') =
      generateVoxelGeometry color_set st /\
    exists b, generateVoxelGeometry color_set st = Ok b /\
      (forall f, In f VoxelFaces -> ~ has_face (gridSize st) b x y z f) /\
      (forall f f', In f VoxelFaces -> In f' VoxelFaces ->
         let '(dx, dy, dz) := dir f in
         dir f' = (- dx, - dy, - dz) ->
         res_truthy (getVoxelColor st (x + dx) (y + dy) (z + dz)) = true ->
         has_face (gridSize st) b (x + dx) (y + dy) (z + dz) f').
Proof.
  intros Hwf Hget. pose proof Hwf as Hwf0. unfold wf_state in Hwf0.
  destruct (voxelData st) as [vd|] eqn:Hvd; [|discriminate].
  assert (Hin : 0 <= x < gridSize st /\ 0 <= y < gridSize st /\ 0 <= z < gridSize st).
  { rewrite (get_wf st vd x y z Hvd Hwf0) in Hget.
    destruct (out_of_bounds (gridSize st) x y z) eqn:Hob; [discriminate|].
    apply out_of_bounds_false. exact Hob. }
  destruct Hin as (Hx & Hy & Hz).
  destruct (set_cell_spec _ vd x y z None Hwf0 Hx Hy Hz) as [vd' (Hset & Hwf' & Hcell)].
  exists vd, vd'. split; [reflexivity|]. split; [exact Hset|]. split.
  - apply generateVoxelGeometry_cong;
      [|simpl; rewrite Hvd; split; intros; discriminate|reflexivity].
    intros x' y' z'.
    rewrite (get_wf (with_voxelData st vd') vd' x' y' z' eq_refl Hwf').
    simpl. destruct (out_of_bounds (gridSize st) x' y' z') eqn:Hob.
    + rewrite (get_wf st vd x' y' z' Hvd Hwf0), Hob. reflexivity.
    + rewrite Hcell. destruct (decide _) as [Heq|Hne].
      * injection Heq as -> -> ->. rewrite Hget. reflexivity.
      * rewrite (get_wf st vd x' y' z' Hvd Hwf0), Hob. reflexivity.
  - destruct (generateVoxelGeometry_faces color_set st Hwf) as [b [Hb Hext]].
    exists b. split; [exact Hb|]. split.
    + intros f Hf. rewrite (has_face_iff st b x y z f Hext Hf), in_face_list.
      rewrite Hget. intros (_ & H & _). discriminate.
    + intros f f' Hf Hf'. destruct (dir f) as [[dx dy] dz] eqn:Hd. intros Hd' Ht.
      rewrite (has_face_iff st b _ _ _ f' Hext Hf'), in_face_list.
      pose proof (get_truthy_in_bounds _ _ _ _ Ht).
      split; [assumption|]. split; [exact Ht|]. split; [exact Hf'|].
      unfold neighbor. rewrite Hd'.
      replace (x + dx + - dx) with x by lia.
      replace (y + dy + - dy) with y by lia.
      replace (z + dz + - dz) with z by lia.
      rewrite Hget. reflexivity.
Qed.

Lemma generateVoxelGeometry_empty_token_is_absent_witness :
  let st := state_of 2 (fun x y z =>
              if decide ((x, y, z) = (0, 0, 0)) then Some ""%string
              else if decide ((x, y, z) = (1, 0, 0)) then Some "red"%string
              else None) in
  (wf_state st = true /\ getVoxelColor st 0 0 0 = Ok (Some ""%string)) /\
  exists vd vd', voxelData st = Some vd /\ set_cell vd 0 0 0 None = Ok vd' /\
    generateVoxelGeometry (fun _ _ => None) (with_voxelData st vd') =
      generateVoxelGeometry (fun _ _ => None) st /\
    exists b, generateVoxelGeometry (fun _ _ => None) st = Ok b /\
      (forall f, In f VoxelFaces -> ~ has_face (gridSize st) b 0 0 0 f) /\
      (forall f f', In f VoxelFaces -> In f' VoxelFaces ->
         let '(dx, dy, dz) := dir f in
         dir f' = (- dx, - dy, - dz) ->
         res_truthy (getVoxelColor st (0 + dx) (0 + dy) (0 + dz)) = true ->
         has_face (gridSize st) b (0 + dx) (0 + dy) (0 + dz) f').
Proof.
  cbv zeta. split; [split; vm_compute; reflexivity|].
  apply generateVoxelGeometry_empty_token_is_absent; vm_compute; reflexivity.
Defined.

(** ** The monad *)

Lemma mbind_ok {A B} (m : M A) (k : A -> M B) st a st' :
  m st = (Ok a, st') -> mbind m k st = k a st'.
Proof. intros H. unfold mbind. rewrite H. reflexivity. Qed.

Lemma mbind_st {A B} (m m' : M A) (k : A -> M B) st st' :
  m st = m' st' -> mbind m k st = mbind m' k st'.
Proof. intros H. unfold mbind. rewrite H. reflexivity. Qed.

Lemma mbind_throw {A B} (m : M A) (k : A -> M B) st e st' :
  m st = (Throw e, st') -> mbind m k st = (Throw e, st').
Proof. intros H. unfold mbind. rewrite H. reflexivity. Qed.

Lemma mtry_ok {A} (m : M A) h st a st' :
  m st = (Ok a, st') -> mtry m h st = (Ok a, st').
Proof. intros H. unfold mtry. rewrite H. reflexivity. Qed.

Lemma mtry_st {A} (m m' : M A) h st st' :
  m st = m' st' -> mtry m h st = mtry m' h st'.
Proof. intros H. unfold mtry. rewrite H. reflexivity. Qed.

(** ** Loops writing cells *)

Lemma set_voxel_wf st vd x y z v :
  voxelData st = Some vd -> wf_grid (gridSize st) vd = true ->
  0 <= x < gridSize st -> 0 <= y < gridSize st -> 0 <= z < gridSize st ->
  exists vd', set_voxel x y z v st = (Ok tt, with_voxelData st vd') /\
    wf_grid (gridSize st) vd' = true /\
    forall x' y' z', cell_at vd' x' y' z' =
      if decide ((x', y', z') = (x, y, z)) then Some v else cell_at vd x' y' z'.
Proof.
  intros Hvd Hwf Hx Hy Hz.
  destruct (set_cell_spec _ vd x y z v Hwf Hx Hy Hz) as [vd' (Hset & Hwf' & Hc)].
  exists vd'. unfold set_voxel. rewrite Hvd, Hset. auto.
Qed.

Section WritesProofs.

Variable V : Z * Z * Z -> cell.
Variable W : Z * Z * Z -> list message.
Variable gs : Z.

Lemma writes_ret : writes V W gs (mret tt) [].
Proof.
  intros st vd Hvd Hgs Hwf. exists vd. split; [|split; [exact Hwf|split; intros; [contradiction|reflexivity]]].
  destruct st; simpl in *; subst. unfold mret. rewrite app_nil_r. reflexivity.
Qed.

Lemma writes_seq m1 m2 L1 L2 :
  writes V W gs m1 L1 -> writes V W gs m2 L2 ->
  writes V W gs (_ <-- m1 ;; m2) (L1 ++ L2).
Proof.
  intros H1 H2 st vd Hvd Hgs Hwf.
  destruct (H1 st vd Hvd Hgs Hwf) as [vd1 (E1 & Hwf1 & In1 & Out1)].
  destruct (H2 (mkState (interpreter st) (scene st) (Some vd1) (voxelMesh st)
      (gridSize st) (next_id st) (rlog st) (outbox st ++ flat_map W L1)) vd1 eq_refl Hgs Hwf1)
    as [vd2 (E2 & Hwf2 & In2 & Out2)].
  exists vd2. split; [|split; [exact Hwf2|split]].
  - rewrite (mbind_ok _ _ _ _ _ E1), E2. simpl.
    rewrite flat_map_app, app_assoc. reflexivity.
  - intros x y z Hin. destruct (decide ((x, y, z) ∈ L2)) as [H|H].
    + apply In2, list_elem_of_In, H.
    + rewrite Out2 by (rewrite <- list_elem_of_In; exact H).
      apply In1. apply in_app_iff in Hin as [Hin|Hin]; [exact Hin|].
      exfalso. apply H, list_elem_of_In, Hin.
  - intros x y z Hin. rewrite Out2, Out1; [reflexivity| |];
      intros Hin'; apply Hin, in_app_iff; auto.
Qed.

Lemma writes_mfor {B} (l : list B) (b : B -> M unit) (G : B -> list (Z * Z * Z)) :
  (forall i, In i l -> writes V W gs (b i) (G i)) ->
  writes V W gs (mfor l b) (flat_map G l).
Proof.
  induction l as [|i l IH]; intros Hb; simpl.
  - apply writes_ret.
  - apply writes_seq; [apply Hb; left; reflexivity|].
    apply IH. intros j Hj. apply Hb. right. exact Hj.
Qed.

Lemma writes_set_voxel x y z v :
  0 <= x < gs -> 0 <= y < gs -> 0 <= z < gs -> V (x, y, z) = v -> W (x, y, z) = [] ->
  writes V W gs (set_voxel x y z v) [(x, y, z)].
Proof.
  intros Hx Hy Hz HV HW st vd Hvd Hgs Hwf. subst gs.
  destruct (set_voxel_wf st vd x y z v Hvd Hwf Hx Hy Hz) as [vd' (E & Hwf' & Hc)].
  exists vd'. split; [|split; [exact Hwf'|split]].
  - rewrite E. simpl. rewrite HW, app_nil_r. reflexivity.
  - intros x' y' z' [Heq|[]]. injection Heq as -> -> ->. rewrite Hc, HV.
    destruct (decide _); [reflexivity|congruence].
  - intros x' y' z' Hn. rewrite Hc. destruct (decide _) as [Heq|]; [|reflexivity].
    exfalso. apply Hn. left. congruence.
Qed.

End WritesProofs.

Lemma writes_eval_cell (ast : Type) interp_eval (a : ast) gs x y z :
  0 <= x < gs -> 0 <= y < gs -> 0 <= z < gs ->
  writes (cell_value ast interp_eval a gs) (cell_warning ast interp_eval a gs) gs
    (eval_cell ast interp_eval a gs x y z) [(x, y, z)].
Proof.
  intros Hx Hy Hz st vd Hvd Hgs Hwf. subst gs.
  destruct (set_voxel_wf st vd x y z (cell_value ast interp_eval a (gridSize st) (x, y, z))
              Hvd Hwf Hx Hy Hz) as [vd' (E & Hwf' & Hc)].
  exists vd'. split; [|split; [exact Hwf'|split]].
  - unfold eval_cell. simpl in E |- *. unfold mtry, mbind, mlift.
    destruct (interp_eval a x y z (gridSize st)) as [r|e].
    + rewrite E. simpl. rewrite app_nil_r. reflexivity.
    + unfold mpost, set_voxel in *. simpl. rewrite Hvd in E |- *.
      destruct (set_cell vd x y z None) as [g|]; [|discriminate].
      injection E; intros; subst.
      reflexivity.
  - intros x' y' z' [Heq|[]]. injection Heq as -> -> ->. rewrite Hc.
    destruct (decide _); [reflexivity|congruence].
  - intros x' y' z' Hn. rewrite Hc. destruct (decide _) as [Heq|]; [|reflexivity].
    exfalso. apply Hn. left. congruence.
Qed.

(** ** [updateVoxelMesh] on a well-formed grid *)

Lemma updateVoxelMesh_ok color_set st vd :
  voxelData st = Some vd -> wf_grid (gridSize st) vd = true ->
  exists st', updateVoxelMesh color_set st = (Ok tt, st') /\
    voxelData st' = voxelData st /\ gridSize st' = gridSize st /\
    outbox st' = outbox st /\ interpreter st' = interpreter st.
Proof.
  intros Hvd Hwf. unfold updateVoxelMesh.
  destruct (scene st) as [sc|]; [|eexists; split; [reflexivity|auto]].
  match goal with |- context [generateVoxelGeometry color_set ?s] =>
    assert (Hw : wf_state s = true) by (unfold wf_state; simpl; rewrite Hvd; exact Hwf);
    destruct (generateVoxelGeometry_faces color_set s Hw) as [b [Hb _]]; rewrite Hb
  end.
  destruct (0 <? _)%nat; eexists; split; try reflexivity; simpl; auto.
Qed.

(** ** The loops of [runPythonCode] *)

Lemma map_as_flat_map {A B} (g : A -> B) (l : list A) :
  map g l = flat_map (fun i => [g i]) l.
Proof. induction l as [|i l IH]; simpl; [reflexivity|]. rewrite IH. reflexivity. Qed.

Lemma in_rows gs x y : In (x, y) (rows gs) <-> 0 <= x < gs /\ 0 <= y < gs.
Proof. unfold rows. rewrite in_prod_iff, !in_zrange. tauto. Qed.

Lemma in_loop_cells gs x y z :
  In (x, y, z) (loop_cells gs) <-> 0 <= x < gs /\ 0 <= y < gs /\ 0 <= z < gs.
Proof.
  unfold loop_cells. rewrite in_flat_map. split.
  - intros [[x' y'] [Hr Hin]]. apply in_map_iff in Hin as [z' [Heq Hz]].
    injection Heq as -> -> ->. apply in_rows in Hr. apply in_zrange in Hz. tauto.
  - intros (Hx & Hy & Hz). exists (x, y). split; [apply in_rows; auto|].
    apply in_map_iff. exists z. split; [reflexivity|apply in_zrange; exact Hz].
Qed.

Lemma reset_spec st vd :
  voxelData st = Some vd -> wf_grid (gridSize st) vd = true ->
  exists vd0,
    mfor (zrange (gridSize st)) (fun x => mfor (zrange (gridSize st)) (fun y =>
      mfor (zrange (gridSize st)) (fun z => set_voxel x y z None))) st =
      (Ok tt, with_voxelData st vd0) /\
    wf_grid (gridSize st) vd0 = true /\
    forall x y z, 0 <= x < gridSize st -> 0 <= y < gridSize st -> 0 <= z < gridSize st ->
      cell_at vd0 x y z = Some None.
Proof.
  intros Hvd Hwf. set (gs := gridSize st).
  assert (Hw : writes (fun _ => None) (fun _ => []) gs
    (mfor (zrange gs) (fun x => mfor (zrange gs) (fun y =>
       mfor (zrange gs) (fun z => set_voxel x y z None))))
    (flat_map (fun x => flat_map (fun y => flat_map (fun z => [(x, y, z)])
       (zrange gs)) (zrange gs)) (zrange gs))).
  { apply writes_mfor. intros x Hx. apply writes_mfor. intros y Hy.
    apply writes_mfor. intros z Hz. apply in_zrange in Hx, Hy, Hz.
    apply writes_set_voxel; auto. }
  destruct (Hw st vd Hvd eq_refl Hwf) as [vd0 (E & Hwf0 & Hin & _)].
  exists vd0. split; [|split; [exact Hwf0|]].
  - rewrite E. rewrite flat_map_nil_l by reflexivity. rewrite app_nil_r. reflexivity.
  - intros x y z Hx Hy Hz. apply Hin.
    apply in_flat_map. exists x. split; [apply in_zrange; exact Hx|].
    apply in_flat_map. exists y. split; [apply in_zrange; exact Hy|].
    apply in_flat_map. exists z. split; [apply in_zrange; exact Hz|left; reflexivity].
Qed.

Section RunnerProofs.

Variable color_set : rgb -> string -> option rgb.
Variable ast : Type.
Variable interp_parse : string -> res ast.
Variable interp_eval : ast -> Z -> Z -> Z -> Z -> res jsval.

Lemma eval_row_writes a gs x y :
  0 <= x < gs -> 0 <= y < gs ->
  writes (cell_value ast interp_eval a gs) (cell_warning ast interp_eval a gs) gs
    (eval_row ast interp_eval a gs x y) (map (fun z => (x, y, z)) (zrange gs)).
Proof.
  intros Hx Hy. unfold eval_row. rewrite map_as_flat_map.
  apply writes_mfor. intros z Hz. apply in_zrange in Hz.
  apply writes_eval_cell; auto.
Qed.

Lemma eval_rows_writes a gs :
  writes (cell_value ast interp_eval a gs) (cell_warning ast interp_eval a gs) gs
    (mfor (rows gs) (fun p => eval_row ast interp_eval a gs (fst p) (snd p)))
    (loop_cells gs).
Proof.
  apply writes_mfor. intros [x y] Hr. apply in_rows in Hr as [Hx Hy].
  apply eval_row_writes; auto.
Qed.

(** Resuming every continuation at once runs the rows one after the
    other, then rebuilds the mesh and posts the success message. *)
Lemma run_rows_sequential a gs rs :
  Forall (fun p => 0 <= fst p < gs /\ 0 <= snd p < gs) rs ->
  forall fuel st vd, (length rs <= fuel)%nat ->
  voxelData st = Some vd -> gridSize st = gs -> wf_grid gs vd = true ->
  mbind (catch_run ast (run_rows color_set ast interp_eval a gs rs))
        (drive color_set ast interp_eval fuel) st =
  (_ <-- mfor rs (fun p => eval_row ast interp_eval a gs (fst p) (snd p)) ;;
   _ <-- updateVoxelMesh color_set ;; _ <-- mpost MSuccess ;; mret tt) st.
Proof.
  induction rs as [|[x y] rs IH]; intros Hall fuel st vd Hlen Hvd Hgs Hwf.
  - subst gs. destruct (updateVoxelMesh_ok color_set st vd Hvd Hwf) as [st' (Hu & _)].
    cbn [mfor run_rows]. unfold catch_run, mtry, mbind, mret, mpost.
    rewrite Hu. destruct fuel; reflexivity.
  - inversion Hall as [|p l [Hx Hy] Hall']; subst p l. simpl in Hx, Hy, Hlen.
    destruct (eval_row_writes a gs x y Hx Hy st vd Hvd Hgs Hwf) as [vd1 (E1 & Hwf1 & _)].
    set (st1 := mkState (interpreter st) (scene st) (Some vd1) (voxelMesh st)
                  (gridSize st) (next_id st) (rlog st)
                  (outbox st ++ flat_map (cell_warning ast interp_eval a gs)
                     (map (fun z => (x, y, z)) (zrange gs)))) in E1.
    transitivity (mbind (catch_run ast
        (if Z.rem y 4 =? 0 then mret (Some (Task ast a gs rs))
         else run_rows color_set ast interp_eval a gs rs))
      (drive color_set ast interp_eval fuel) st1).
    { apply mbind_st. unfold catch_run. apply mtry_st. cbn [run_rows].
      exact (mbind_ok _ (fun _ => _) _ _ _ E1). }
    transitivity ((_ <-- mfor rs (fun p => eval_row ast interp_eval a gs (fst p) (snd p)) ;;
      _ <-- updateVoxelMesh color_set ;; _ <-- mpost MSuccess ;; mret tt) st1).
    2:{ symmetry. apply mbind_st. cbn [mfor fst snd].
        exact (mbind_ok _ (fun _ => _) _ _ _ E1). }
    destruct (Z.rem y 4 =? 0).
    + destruct fuel as [|n]; [lia|].
      transitivity (mbind (catch_run ast (run_rows color_set ast interp_eval a gs rs))
                      (drive color_set ast interp_eval n) st1); [reflexivity|].
      apply (IH Hall' n st1 vd1); [lia|reflexivity|exact Hgs|exact Hwf1].
    + apply (IH Hall' fuel st1 vd1); [lia|reflexivity|exact Hgs|exact Hwf1].
Qed.

Lemma rows_in_bounds gs :
  Forall (fun p => 0 <= fst p < gs /\ 0 <= snd p < gs) (rows gs).
Proof.
  apply List.Forall_forall. intros [x y] Hr. apply in_rows in Hr. exact Hr.
Qed.

(** [runPythonCode] on an initialized worker, up to the start of the rows:
    the checks pass, the grid is reset, the code parses. *)
Lemma runPythonCode_prefix {B} code a st vd (k : option (task ast) -> M B) :
  initialized st = true -> voxelData st = Some vd -> wf_grid (gridSize st) vd = true ->
  interp_parse code = Ok a ->
  exists vd0, wf_grid (gridSize st) vd0 = true /\
    (forall x y z, 0 <= x < gridSize st -> 0 <= y < gridSize st -> 0 <= z < gridSize st ->
       cell_at vd0 x y z = Some None) /\
    mbind (runPythonCode color_set ast interp_parse interp_eval code) k st =
    mbind (catch_run ast (run_rows color_set ast interp_eval a (gridSize st)
                            (rows (gridSize st)))) k (with_voxelData st vd0).
Proof.
  intros Hinit Hvd Hwf Hparse.
  destruct (reset_spec st vd Hvd Hwf) as [vd0 (E0 & Hwf0 & Hnull)].
  exists vd0. split; [exact Hwf0|]. split; [exact Hnull|].
  apply mbind_st. unfold runPythonCode, catch_run. apply mtry_st.
  rewrite (mbind_ok (mgets initialized) _ st true st) by (unfold mgets; rewrite Hinit; reflexivity).
  cbv beta. cbn [negb].
  rewrite (mbind_ok (mgets gridSize) _ st (gridSize st) st) by reflexivity.
  cbv beta.
  rewrite (mbind_ok _ (fun _ => _) st tt (with_voxelData st vd0) E0).
  rewrite (mbind_ok (mlift (interp_parse code)) _ (with_voxelData st vd0) a
             (with_voxelData st vd0))
    by (unfold mlift; rewrite Hparse; reflexivity).
  reflexivity.
Qed.

(** A whole run with nothing else happening meanwhile: every cell holds
    what [draw] gave there, the warnings are posted in loop order, and
    the mesh is rebuilt before the success message. *)
Lemma run_alone_spec code a st vd :
  initialized st = true -> voxelData st = Some vd -> wf_grid (gridSize st) vd = true ->
  interp_parse code = Ok a ->
  exists vd' st_m,
    wf_grid (gridSize st) vd' = true /\
    (forall x y z, 0 <= x < gridSize st -> 0 <= y < gridSize st -> 0 <= z < gridSize st ->
       cell_at vd' x y z = Some (cell_value ast interp_eval a (gridSize st) (x, y, z))) /\
    updateVoxelMesh color_set
      (mkState (interpreter st) (scene st) (Some vd') (voxelMesh st) (gridSize st)
         (next_id st) (rlog st)
         (outbox st ++ flat_map (cell_warning ast interp_eval a (gridSize st))
                         (loop_cells (gridSize st)))) = (Ok tt, st_m) /\
    voxelData st_m = Some vd' /\
    outbox st_m = outbox st ++ flat_map (cell_warning ast interp_eval a (gridSize st))
                                 (loop_cells (gridSize st)) /\
    run_alone color_set ast interp_parse interp_eval code st = (Ok tt, post st_m MSuccess).
Proof.
  intros Hinit Hvd Hwf Hparse. set (gs := gridSize st).
  destruct (runPythonCode_prefix code a st vd
              (drive color_set ast interp_eval (length (rows gs))) Hinit Hvd Hwf Hparse)
    as [vd0 (Hwf0 & _ & E0)].
  destruct (eval_rows_writes a gs (with_voxelData st vd0) vd0 eq_refl eq_refl Hwf0)
    as [vd' (E1 & Hwf' & Hin & _)].
  set (st2 := mkState (interpreter st) (scene st) (Some vd') (voxelMesh st) gs
                (next_id st) (rlog st)
                (outbox st ++ flat_map (cell_warning ast interp_eval a gs) (loop_cells gs))).
  destruct (updateVoxelMesh_ok color_set st2 vd' eq_refl Hwf') as [st_m (Hu & Hv & _ & Ho & _)].
  exists vd', st_m. split; [exact Hwf'|]. split.
  { intros x y z Hx Hy Hz. apply Hin, in_loop_cells. auto. }
  split; [exact Hu|]. split; [exact Hv|]. split; [exact Ho|].
  unfold run_alone. cbv beta. fold gs. etransitivity; [exact E0|].
  etransitivity; [exact (run_rows_sequential a gs (rows gs) (rows_in_bounds gs) _
             (with_voxelData st vd0) vd0 (le_n _) eq_refl eq_refl Hwf0)|].
  rewrite (mbind_ok _ (fun _ => _) _ _ _ E1).
  rewrite (mbind_ok _ (fun _ => _) _ _ _ Hu). reflexivity.
Qed.

End RunnerProofs.

(** ** Claims about [runPythonCode] *)

(** C2: in a run, every cell where [draw] returns normally holds the
    returned string when it is a string, ['#00ff00'] when it is [true], and
    [null] for any other value. *)
Theorem runPythonCode_stores_draw_result color_set (ast : Type) interp_parse interp_eval
    code (a : ast) st vd :
  initialized st = true -> voxelData st = Some vd -> wf_grid (gridSize st) vd = true ->
  interp_parse code = Ok a ->
  exists st' vd',
    run_alone color_set ast interp_parse interp_eval code st = (Ok tt, st') /\
    voxelData st' = Some vd' /\
    forall x y z r, 0 <= x < gridSize st -> 0 <= y < gridSize st -> 0 <= z < gridSize st ->
      interp_eval a x y z (gridSize st) = Ok r ->
      (forall s, r = JStr s -> cell_at vd' x y z = Some (Some s)) /\
      (r = JBool true -> cell_at vd' x y z = Some (Some "#00ff00"%string)) /\
      ((forall s, r <> JStr s) -> r <> JBool true -> cell_at vd' x y z = Some None).
Proof.
  intros Hinit Hvd Hwf Hparse.
  destruct (run_alone_spec color_set ast interp_parse interp_eval code a st vd
              Hinit Hvd Hwf Hparse) as [vd' [st_m (_ & Hcell & _ & Hv & _ & Hrun)]].
  exists (post st_m MSuccess), vd'. split; [exact Hrun|]. split; [exact Hv|].
  intros x y z r Hx Hy Hz Hr. rewrite (Hcell x y z Hx Hy Hz). simpl. rewrite Hr.
  split; [intros s ->; reflexivity|]. split; [intros ->; reflexivity|].
  intros Hs Hb. destruct r as [s|[]| | | |]; try reflexivity.
  - exfalso. exact (Hs s eq_refl).
  - exfalso. exact (Hb eq_refl).
Qed.

Lemma runPythonCode_stores_draw_result_witness :
  (initialized (state_of 3 (fun _ _ _ => None)) = true /\
   voxelData (state_of 3 (fun _ _ _ => None)) = Some (grid_of 3 (fun _ _ _ => None)) /\
   wf_grid 3 (grid_of 3 (fun _ _ _ => None)) = true /\
   demo_parse "ok" = Ok "ok"%string) /\
  exists st' vd',
    run_alone (fun _ _ => None) string demo_parse demo_eval "ok" (state_of 3 (fun _ _ _ => None))
      = (Ok tt, st') /\
    voxelData st' = Some vd' /\
    forall x y z r, 0 <= x < 3 -> 0 <= y < 3 -> 0 <= z < 3 ->
      demo_eval "ok" x y z 3 = Ok r ->
      (forall s, r = JStr s -> cell_at vd' x y z = Some (Some s)) /\
      (r = JBool true -> cell_at vd' x y z = Some (Some "#00ff00"%string)) /\
      ((forall s, r <> JStr s) -> r <> JBool true -> cell_at vd' x y z = Some None).
Proof.
  split; [split; [reflexivity|split; [reflexivity|split; vm_compute; reflexivity]]|].
  apply (runPythonCode_stores_draw_result (fun _ _ => None) string demo_parse demo_eval
           "ok"%string "ok"%string (state_of 3 (fun _ _ _ => None)) (grid_of 3 (fun _ _ _ => None)));
    vm_compute; reflexivity.
Defined.

(** C3: when the source text does not parse, the run ends at once with the
    message [Code execution failed: ...]; every cell is [null] (the grid
    was reset before parsing); the mesh is not rebuilt: the scene, the
    mesh handle and the resource trace are unchanged. *)
Theorem runPythonCode_parse_error color_set (ast : Type) interp_parse interp_eval
    code e st vd :
  initialized st = true -> voxelData st = Some vd -> wf_grid (gridSize st) vd = true ->
  interp_parse code = Throw e ->
  exists st' vd',
    runPythonCode color_set ast interp_parse interp_eval code st = (Ok None, st') /\
    run_alone color_set ast interp_parse interp_eval code st = (Ok tt, st') /\
    outbox st' = outbox st ++ [MError ("Code execution failed: " ++ e)] /\
    voxelData st' = Some vd' /\
    (forall x y z, 0 <= x < gridSize st -> 0 <= y < gridSize st -> 0 <= z < gridSize st ->
       cell_at vd' x y z = Some None) /\
    scene st' = scene st /\ voxelMesh st' = voxelMesh st /\
    rlog st' = rlog st /\ next_id st' = next_id st.
Proof.
  intros Hinit Hvd Hwf Hparse.
  destruct (reset_spec st vd Hvd Hwf) as [vd0 (E0 & _ & Hnull)].
  set (st' := post (with_voxelData st vd0) (MError ("Code execution failed: " ++ e))).
  assert (Hr : runPythonCode color_set ast interp_parse interp_eval code st = (Ok None, st')).
  { unfold runPythonCode, catch_run, mtry.
    rewrite (mbind_ok (mgets initialized) _ st true st)
      by (unfold mgets; rewrite Hinit; reflexivity).
    cbv beta. cbn [negb].
    rewrite (mbind_ok (mgets gridSize) _ st (gridSize st) st) by reflexivity.
    cbv beta.
    rewrite (mbind_ok _ (fun _ => _) st tt (with_voxelData st vd0) E0).
    rewrite (mbind_throw (mlift (interp_parse code)) _ (with_voxelData st vd0) e
               (with_voxelData st vd0)) by (unfold mlift; rewrite Hparse; reflexivity).
    reflexivity. }
  exists st', vd0. split; [exact Hr|]. split.
  { unfold run_alone. cbv beta. rewrite (mbind_ok _ _ _ _ _ Hr).
    destruct (length _); reflexivity. }
  split; [reflexivity|]. split; [reflexivity|]. split; [exact Hnull|].
  repeat split.
Qed.

Lemma runPythonCode_parse_error_witness :
  (initialized (state_of 2 (fun _ _ _ => Some "red"%string)) = true /\
   voxelData (state_of 2 (fun _ _ _ => Some "red"%string)) =
     Some (grid_of 2 (fun _ _ _ => Some "red"%string)) /\
   wf_grid 2 (grid_of 2 (fun _ _ _ => Some "red"%string)) = true /\
   (fun _ : string => Throw (A := string) "SyntaxError") "def draw("%string = Throw "SyntaxError"%string) /\
  exists st' vd',
    runPythonCode (fun _ _ => None) string (fun _ => Throw "SyntaxError"%string) demo_eval
      "def draw("%string (state_of 2 (fun _ _ _ => Some "red"%string)) = (Ok None, st') /\
    run_alone (fun _ _ => None) string (fun _ => Throw "SyntaxError"%string) demo_eval
      "def draw("%string (state_of 2 (fun _ _ _ => Some "red"%string)) = (Ok tt, st') /\
    outbox st' = outbox (state_of 2 (fun _ _ _ => Some "red"%string)) ++
                 [MError ("Code execution failed: " ++ "SyntaxError")] /\
    voxelData st' = Some vd' /\
    (forall x y z, 0 <= x < 2 -> 0 <= y < 2 -> 0 <= z < 2 -> cell_at vd' x y z = Some None) /\
    scene st' = scene (state_of 2 (fun _ _ _ => Some "red"%string)) /\
    voxelMesh st' = voxelMesh (state_of 2 (fun _ _ _ => Some "red"%string)) /\
    rlog st' = rlog (state_of 2 (fun _ _ _ => Some "red"%string)) /\
    next_id st' = next_id (state_of 2 (fun _ _ _ => Some "red"%string)).
Proof.
  split; [split; [reflexivity|split; [reflexivity|split; [vm_compute|]; reflexivity]]|].
  apply (runPythonCode_parse_error (fun _ _ => None) string (fun _ => Throw "SyntaxError"%string)
           demo_eval "def draw("%string "SyntaxError" (state_of 2 (fun _ _ _ => Some "red"%string))
           (grid_of 2 (fun _ _ _ => Some "red"%string)));
    vm_compute; reflexivity.
Defined.

(** C4: when evaluating [draw] throws at a cell, the run catches it: that
    cell is [null], a warning naming the cell and the error is posted, the
    other cells get their results, the mesh is rebuilt from the final grid
    and the run ends with the success message (the only messages posted are
    warnings, then the success). *)
Theorem runPythonCode_eval_error_is_local color_set (ast : Type) interp_parse interp_eval
    code (a : ast) st vd x0 y0 z0 e :
  initialized st = true -> voxelData st = Some vd -> wf_grid (gridSize st) vd = true ->
  interp_parse code = Ok a ->
  0 <= x0 < gridSize st -> 0 <= y0 < gridSize st -> 0 <= z0 < gridSize st ->
  interp_eval a x0 y0 z0 (gridSize st) = Throw e ->
  exists vd' st_m ws,
    run_alone color_set ast interp_parse interp_eval code st = (Ok tt, post st_m MSuccess) /\
    updateVoxelMesh color_set
      (mkState (interpreter st) (scene st) (Some vd') (voxelMesh st) (gridSize st)
         (next_id st) (rlog st) (outbox st ++ ws)) = (Ok tt, st_m) /\
    voxelData st_m = Some vd' /\
    outbox (post st_m MSuccess) = outbox st ++ ws ++ [MSuccess] /\
    In (MWarning x0 y0 z0 e) ws /\
    (forall m, In m ws -> exists x y z e', m = MWarning x y z e') /\
    cell_at vd' x0 y0 z0 = Some None /\
    (forall x y z r, 0 <= x < gridSize st -> 0 <= y < gridSize st -> 0 <= z < gridSize st ->
       interp_eval a x y z (gridSize st) = Ok r -> cell_at vd' x y z = Some (result_to_cell r)).
Proof.
  intros Hinit Hvd Hwf Hparse Hx0 Hy0 Hz0 He.
  destruct (run_alone_spec color_set ast interp_parse interp_eval code a st vd
              Hinit Hvd Hwf Hparse) as [vd' [st_m (_ & Hcell & Hu & Hv & Ho & Hrun)]].
  exists vd', st_m, (flat_map (cell_warning ast interp_eval a (gridSize st))
                       (loop_cells (gridSize st))).
  split; [exact Hrun|]. split; [exact Hu|]. split; [exact Hv|]. split.
  { simpl. rewrite Ho, app_assoc. reflexivity. }
  split.
  { apply in_flat_map. exists (x0, y0, z0). split; [apply in_loop_cells; auto|].
    simpl. rewrite He. left. reflexivity. }
  split.
  { intros m Hm. apply in_flat_map in Hm as [[[x y] z] [_ Hm]]. simpl in Hm.
    destruct (interp_eval a x y z (gridSize st)) as [r|e']; [contradiction|].
    destruct Hm as [<-|[]]. eauto. }
  split.
  { rewrite (Hcell x0 y0 z0 Hx0 Hy0 Hz0). simpl. rewrite He. reflexivity. }
  intros x y z r Hx Hy Hz Hr. rewrite (Hcell x y z Hx Hy Hz). simpl. rewrite Hr. reflexivity.
Qed.

Lemma runPythonCode_eval_error_is_local_witness :
  (initialized (state_of 2 (fun _ _ _ => None)) = true /\
   voxelData (state_of 2 (fun _ _ _ => None)) = Some (grid_of 2 (fun _ _ _ => None)) /\
   wf_grid 2 (grid_of 2 (fun _ _ _ => None)) = true /\
   demo_parse "bad" = Ok "bad"%string /\
   0 <= 0 < 2 /\ demo_eval "bad" 0 0 0 2 = Throw "boom"%string) /\
  exists vd' st_m ws,
    run_alone (fun _ _ => None) string demo_parse demo_eval "bad"
      (state_of 2 (fun _ _ _ => None)) = (Ok tt, post st_m MSuccess) /\
    updateVoxelMesh (fun _ _ => None)
      (mkState true (Some []) (Some vd') None 2 0 [] ([] ++ ws)) = (Ok tt, st_m) /\
    voxelData st_m = Some vd' /\
    outbox (post st_m MSuccess) = [] ++ ws ++ [MSuccess] /\
    In (MWarning 0 0 0 "boom") ws /\
    (forall m, In m ws -> exists x y z e', m = MWarning x y z e') /\
    cell_at vd' 0 0 0 = Some None /\
    (forall x y z r, 0 <= x < 2 -> 0 <= y < 2 -> 0 <= z < 2 ->
       demo_eval "bad" x y z 2 = Ok r -> cell_at vd' x y z = Some (result_to_cell r)).
Proof.
  split; [repeat split; try lia; vm_compute; reflexivity|].
  apply (runPythonCode_eval_error_is_local (fun _ _ => None) string demo_parse demo_eval
           "bad"%string "bad"%string (state_of 2 (fun _ _ _ => None))
           (grid_of 2 (fun _ _ _ => None)) 0 0 0 "boom"%string);
    try (cbn; lia); vm_compute; reflexivity.
Defined.

(** ** Claims about [updateVoxelMesh] *)

Lemma voxel_meshes_app l1 l2 :
  voxel_meshes (l1 ++ l2) = voxel_meshes l1 ++ voxel_meshes l2.
Proof.
  induction l1 as [|[i|s] l1 IH]; simpl; [reflexivity| |]; rewrite IH; reflexivity.
Qed.

Lemma voxel_meshes_remove sc m :
  voxel_meshes sc = [m] -> voxel_meshes (scene_remove (NVoxelMesh m) sc) = [].
Proof.
  induction sc as [|n sc IH]; intros H; [discriminate|]. cbn [scene_remove].
  destruct (decide (n = NVoxelMesh m)) as [->|Hn].
  - cbn in H. injection H as H. exact H.
  - destruct n as [i|s]; cbn [voxel_meshes] in H |- *.
    + injection H as -> H. exfalso. apply Hn. reflexivity.
    + apply IH, H.
Qed.

(** The mesher reads the state only through [voxelData] and [gridSize]. *)
Lemma generateVoxelGeometry_fields color_set st st' :
  voxelData st = voxelData st' -> gridSize st = gridSize st' ->
  generateVoxelGeometry color_set st = generateVoxelGeometry color_set st'.
Proof.
  intros Hv Hg. apply generateVoxelGeometry_cong; [|rewrite Hv; tauto|exact Hg].
  intros x y z. unfold getVoxelColor. rewrite Hv, Hg. reflexivity.
Qed.

Lemma updateVoxelMesh_step color_set st sc :
  scene st = Some sc -> voxel_meshes sc = opt_list (voxelMesh st) ->
  exists sc1 created,
    scene (snd (updateVoxelMesh color_set st)) = Some sc1 /\
    voxel_meshes sc1 = opt_list (voxelMesh (snd (updateVoxelMesh color_set st))) /\
    rlog (snd (updateVoxelMesh color_set st)) =
      rlog st ++ dispose_events (voxelMesh st) ++ created /\
    (created = [] \/
     created = [ENewGeometry (next_id st); EDisposeGeometry (next_id st)] \/
     created = [ENewGeometry (next_id st); ENewMaterial (next_id st);
                ENewMesh (next_id st); ESceneAdd (next_id st)]) /\
    voxelData (snd (updateVoxelMesh color_set st)) = voxelData st /\
    gridSize (snd (updateVoxelMesh color_set st)) = gridSize st /\
    length (voxel_meshes sc1) =
      match generateVoxelGeometry color_set st with
      | Ok b => if (0 <? length (indices b))%nat then 1%nat else 0%nat
      | Throw _ => 0%nat
      end.
Proof.
  intros Hsc Hinv. unfold updateVoxelMesh. rewrite Hsc.
  assert (Hsc1 : voxel_meshes (match voxelMesh st with
                                | Some i => scene_remove (NVoxelMesh i) sc
                                | None => sc end) = []).
  { destruct (voxelMesh st) as [m|]; simpl in Hinv;
      [apply voxel_meshes_remove; exact Hinv|exact Hinv]. }
  set (sc1 := match voxelMesh st with
              | Some i => scene_remove (NVoxelMesh i) sc
              | None => sc end) in *.
  match goal with |- context [generateVoxelGeometry color_set ?s] =>
    rewrite (generateVoxelGeometry_fields color_set s st eq_refl eq_refl)
  end.
  destruct (generateVoxelGeometry color_set st) as [b|e];
    [destruct (0 <? length (indices b))%nat|]; simpl.
  - exists (sc1 ++ [NVoxelMesh (next_id st)]),
      [ENewGeometry (next_id st); ENewMaterial (next_id st);
       ENewMesh (next_id st); ESceneAdd (next_id st)].
    rewrite voxel_meshes_app, Hsc1. simpl. rewrite <- app_assoc. auto 10.
  - exists sc1, [ENewGeometry (next_id st); EDisposeGeometry (next_id st)].
    rewrite Hsc1, <- app_assoc. auto 10.
  - exists sc1, []. rewrite Hsc1, app_nil_r. auto 10.
Qed.

(** C5: [updateVoxelMesh] on a scene whose voxel meshes are just the
    installed handle: the old mesh is removed from the scene and its
    geometry and material disposed before any new resource is created;
    afterwards the scene holds at most one voxel mesh, one when the new
    index array is non-empty and none when it is empty; a second call with
    the grid unchanged leaves the same number of voxel meshes. *)
Theorem updateVoxelMesh_replaces_mesh color_set st sc r1 st1 r2 st2 :
  scene st = Some sc -> voxel_meshes sc = opt_list (voxelMesh st) ->
  updateVoxelMesh color_set st = (r1, st1) -> updateVoxelMesh color_set st1 = (r2, st2) ->
  (exists created, rlog st1 = rlog st ++ dispose_events (voxelMesh st) ++ created /\
     (created = [] \/
      created = [ENewGeometry (next_id st); EDisposeGeometry (next_id st)] \/
      created = [ENewGeometry (next_id st); ENewMaterial (next_id st);
                 ENewMesh (next_id st); ESceneAdd (next_id st)])) /\
  (exists sc1, scene st1 = Some sc1 /\ voxel_meshes sc1 = opt_list (voxelMesh st1)) /\
  (mesh_count st1 <= 1)%nat /\
  (forall b, generateVoxelGeometry color_set st = Ok b ->
     mesh_count st1 = if (0 <? length (indices b))%nat then 1%nat else 0%nat) /\
  mesh_count st2 = mesh_count st1.
Proof.
  intros Hsc Hinv E1 E2.
  destruct (updateVoxelMesh_step color_set st sc Hsc Hinv)
    as [sc1 [created (Hs1 & Hi1 & Hl1 & Hc1 & Hv1 & Hg1 & Hn1)]].
  rewrite E1 in Hs1, Hi1, Hl1, Hv1, Hg1. simpl in Hs1, Hi1, Hl1, Hv1, Hg1.
  destruct (updateVoxelMesh_step color_set st1 sc1 Hs1 Hi1)
    as [sc2 [created2 (Hs2 & _ & _ & _ & _ & _ & Hn2)]].
  rewrite E2 in Hs2. simpl in Hs2.
  rewrite (generateVoxelGeometry_fields color_set st1 st Hv1 Hg1) in Hn2.
  unfold mesh_count. rewrite Hs1, Hs2.
  split; [exists created; auto|]. split; [exists sc1; auto|]. split.
  { rewrite Hn1. destruct (generateVoxelGeometry color_set st);
      [destruct (0 <? _)%nat|]; lia. }
  split; [intros b Hb; rewrite Hn1, Hb; reflexivity|].
  rewrite Hn1, Hn2. reflexivity.
Qed.

Lemma updateVoxelMesh_replaces_mesh_witness :
  let st := mkState true (Some [NOther "light"; NVoxelMesh 0])
              (Some (grid_of 2 (one_cell (0, 0, 0) (Some "red"%string)))) (Some 0%nat) 2 1 [] [] in
  let p1 := updateVoxelMesh (fun _ _ => None) st in
  let p2 := updateVoxelMesh (fun _ _ => None) (snd p1) in
  (scene st = Some [NOther "light"; NVoxelMesh 0] /\
   voxel_meshes [NOther "light"; NVoxelMesh 0] = opt_list (voxelMesh st) /\
   updateVoxelMesh (fun _ _ => None) st = (fst p1, snd p1) /\
   updateVoxelMesh (fun _ _ => None) (snd p1) = (fst p2, snd p2)) /\
  (exists created, rlog (snd p1) = rlog st ++ dispose_events (voxelMesh st) ++ created /\
     (created = [] \/
      created = [ENewGeometry (next_id st); EDisposeGeometry (next_id st)] \/
      created = [ENewGeometry (next_id st); ENewMaterial (next_id st);
                 ENewMesh (next_id st); ESceneAdd (next_id st)])) /\
  (exists sc1, scene (snd p1) = Some sc1 /\ voxel_meshes sc1 = opt_list (voxelMesh (snd p1))) /\
  (mesh_count (snd p1) <= 1)%nat /\
  (forall b, generateVoxelGeometry (fun _ _ => None) st = Ok b ->
     mesh_count (snd p1) = if (0 <? length (indices b))%nat then 1%nat else 0%nat) /\
  mesh_count (snd p2) = mesh_count (snd p1).
Proof.
  intros st p1 p2. split; [repeat split; subst st p1 p2; vm_compute; reflexivity|].
  apply (updateVoxelMesh_replaces_mesh (fun _ _ => None) st [NOther "light"; NVoxelMesh 0]
           (fst p1) (snd p1) (fst p2) (snd p2)); subst st p1 p2; vm_compute; reflexivity.
Defined.

(** The spec's idempotence sentence fails on an empty grid: two calls in a
    row leave no voxel mesh at all, not one. *)
Lemma updateVoxelMesh_twice_empty_grid :
  mesh_count (snd (updateVoxelMesh (fun _ _ => None) (state_of 2 (fun _ _ _ => None)))) = 0%nat /\
  mesh_count (snd (updateVoxelMesh (fun _ _ => None)
    (snd (updateVoxelMesh (fun _ _ => None) (state_of 2 (fun _ _ _ => None)))))) = 0%nat.
Proof. split; vm_compute; reflexivity. Qed.

(** ** Claims about the event loop *)

Lemma mbind_ret_r {A} (m : M A) st : mbind m mret st = m st.
Proof. unfold mbind. destruct (m st) as [[a|e] st']; reflexivity. Qed.

Lemma rows_head gs : 1 <= gs -> rows gs = (0, 0) :: tl (rows gs).
Proof.
  intros Hgs. unfold rows, zrange.
  destruct (Z.to_nat gs) as [|n] eqn:E; [lia|]. reflexivity.
Qed.

Lemma in_row_cells (gs x y z x0 y0 : Z) :
  In (x, y, z) (map (fun z => (x0, y0, z)) (zrange gs)) <->
  x = x0 /\ y = y0 /\ 0 <= z < gs.
Proof.
  rewrite in_map_iff. split.
  - intros [z' [Heq Hz]]. injection Heq as -> -> ->. apply in_zrange in Hz. auto.
  - intros (-> & -> & Hz). exists z. split; [reflexivity|apply in_zrange; exact Hz].
Qed.

(** C6: the worker has no re-entrancy guard. A [runPythonCode] message
    delivered while an earlier run is suspended at an [await] starts a new
    run at once: the earlier run's continuation stays queued, the grid is
    reset (the earlier run's cells are lost) and the new code's first row
    is written. *)
Theorem runPythonCode_no_reentrancy_guard color_set (ast : Type) interp_parse interp_eval
    (w : World ast) code rest t ts (a : ast) vd :
  inbox w = code :: rest -> timers w = t :: ts ->
  initialized (wstate w) = true -> voxelData (wstate w) = Some vd ->
  wf_grid (gridSize (wstate w)) vd = true -> 1 <= gridSize (wstate w) ->
  interp_parse code = Ok a ->
  let w' := deliver color_set ast interp_parse interp_eval w in
  let gs := gridSize (wstate w) in
  wstep color_set ast interp_parse interp_eval w w' /\
  inbox w' = rest /\
  timers w' = t :: ts ++ [Task ast a gs (tl (rows gs))] /\
  exists vd', voxelData (wstate w') = Some vd' /\
    forall x y z, 0 <= x < gs -> 0 <= y < gs -> 0 <= z < gs ->
      cell_at vd' x y z =
        Some (if (x =? 0) && (y =? 0) then cell_value ast interp_eval a gs (x, y, z) else None).
Proof.
  intros Hin Ht Hinit Hvd Hwf Hgs Hparse w' gs.
  set (st := wstate w) in *.
  destruct (runPythonCode_prefix color_set ast interp_parse interp_eval code a st vd mret
              Hinit Hvd Hwf Hparse) as [vd0 (Hwf0 & Hnull & E0)].
  rewrite !mbind_ret_r in E0.
  destruct (eval_row_writes ast interp_eval a gs 0 0 ltac:(lia) ltac:(lia)
              (with_voxelData st vd0) vd0 eq_refl eq_refl Hwf0)
    as [vd1 (E1 & _ & Hrow & Hother)].
  assert (Hr : runPythonCode color_set ast interp_parse interp_eval code st =
    (Ok (Some (Task ast a gs (tl (rows gs)))),
     mkState (interpreter st) (scene st) (Some vd1) (voxelMesh st) gs (next_id st) (rlog st)
       (outbox st ++ flat_map (cell_warning ast interp_eval a gs)
                       (map (fun z => (0, 0, z)) (zrange gs))))).
  { rewrite E0. fold gs. rewrite (rows_head gs Hgs) at 1. unfold catch_run.
    apply mtry_ok. cbn [run_rows]. rewrite (mbind_ok _ (fun _ => _) _ _ _ E1). reflexivity. }
  assert (Hw' : w' = mkWorld ast
    (mkState (interpreter st) (scene st) (Some vd1) (voxelMesh st) gs (next_id st) (rlog st)
       (outbox st ++ flat_map (cell_warning ast interp_eval a gs)
                       (map (fun z => (0, 0, z)) (zrange gs))))
    rest (t :: ts ++ [Task ast a gs (tl (rows gs))])).
  { subst w'. unfold deliver. rewrite Hin. fold st. rewrite Hr, Ht. reflexivity. }
  split; [apply step_deliver; rewrite Hin; discriminate|].
  rewrite Hw'. split; [reflexivity|]. split; [reflexivity|].
  exists vd1. split; [reflexivity|].
  intros x y z Hx Hy Hz.
  destruct (Z.eqb_spec x 0) as [->|Hx0]; destruct (Z.eqb_spec y 0) as [->|Hy0]; simpl.
  - apply Hrow, in_row_cells. auto.
  - rewrite Hother by (rewrite in_row_cells; lia). apply Hnull; auto.
  - rewrite Hother by (rewrite in_row_cells; lia). apply Hnull; auto.
  - rewrite Hother by (rewrite in_row_cells; lia). apply Hnull; auto.
Qed.

Lemma runPythonCode_no_reentrancy_guard_witness :
  let w := mkWorld string (state_of 2 (fun _ _ _ => None)) ["blue"%string]
             [Task string "red"%string 2 [(1, 0)]] in
  (inbox w = ["blue"%string] /\ timers w = [Task string "red"%string 2 [(1, 0)]] /\
   initialized (wstate w) = true /\
   voxelData (wstate w) = Some (grid_of 2 (fun _ _ _ => None)) /\
   wf_grid (gridSize (wstate w)) (grid_of 2 (fun _ _ _ => None)) = true /\
   1 <= gridSize (wstate w) /\ demo_parse "blue" = Ok "blue"%string) /\
  let w' := deliver (fun _ _ => None) string demo_parse echo_eval w in
  let gs := gridSize (wstate w) in
  wstep (fun _ _ => None) string demo_parse echo_eval w w' /\
  inbox w' = [] /\
  timers w' = Task string "red"%string 2 [(1, 0)] :: [] ++
                [Task string "blue"%string gs (tl (rows gs))] /\
  exists vd', voxelData (wstate w') = Some vd' /\
    forall x y z, 0 <= x < gs -> 0 <= y < gs -> 0 <= z < gs ->
      cell_at vd' x y z =
        Some (if (x =? 0) && (y =? 0)
              then cell_value string echo_eval "blue"%string gs (x, y, z) else None).
Proof.
  intros w. split; [repeat split; try (cbn; lia); vm_compute; reflexivity|].
  apply (runPythonCode_no_reentrancy_guard (fun _ _ => None) string demo_parse echo_eval
           w "blue"%string [] (Task string "red"%string 2 [(1, 0)]) []
           "blue"%string (grid_of 2 (fun _ _ _ => None)));
    subst w; try (cbn; lia); vm_compute; reflexivity.
Defined.

(** The claim fails: while a first run is suspended at its [await], a
    second [runPythonCode] message is not rejected. It rewrites the grid at
    once and leaves two runs in flight; the first run then ends with the
    success message and a mesh built from the second run's grid. *)
Lemma runPythonCode_second_request_runs_at_once :
  let w0 := mkWorld string (state_of 1 (fun _ _ _ => None)) ["red"; "blue"]%string [] in
  let w1 := deliver (fun _ _ => None) string demo_parse echo_eval w0 in
  let w2 := deliver (fun _ _ => None) string demo_parse echo_eval w1 in
  let w3 := fire (fun _ _ => None) string echo_eval w2 in
  wstep (fun _ _ => None) string demo_parse echo_eval w0 w1 /\
  wstep (fun _ _ => None) string demo_parse echo_eval w1 w2 /\
  wstep (fun _ _ => None) string demo_parse echo_eval w2 w3 /\
  length (timers w1) = 1%nat /\
  voxelData (wstate w2) <> voxelData (wstate w1) /\
  length (timers w2) = 2%nat /\
  outbox (wstate w3) = [MSuccess] /\
  voxelData (wstate w3) = Some [[[Some "blue"%string]]].
Proof.
  intros w0 w1 w2 w3.
  split; [apply step_deliver; subst w0; discriminate|].
  split; [apply step_deliver; subst w1 w0; vm_compute; discriminate|].
  split; [apply step_fire; subst w2 w1 w0; vm_compute; discriminate|].
  subst w3 w2 w1 w0. vm_compute. repeat split; try reflexivity. discriminate.
Qed.

(** * Further properties of the voxel core *)

(** ** Grids equal cell by cell *)

Lemma zlookup_of_nat {A} (l : list A) (i : nat) : zlookup l (Z.of_nat i) = l !! i.
Proof.
  unfold zlookup. destruct (Z.ltb_spec (Z.of_nat i) 0); [lia|].
  rewrite Nat2Z.id. reflexivity.
Qed.

Lemma list_eq_len {A} (l1 l2 : list A) (n : nat) :
  length l1 = n -> length l2 = n -> (forall i, (i < n)%nat -> l1 !! i = l2 !! i) -> l1 = l2.
Proof.
  intros H1 H2 H. apply list_eq. intros i.
  destruct (Nat.lt_ge_cases i n) as [Hi|Hi]; [auto|].
  rewrite !lookup_ge_None_2 by lia. reflexivity.
Qed.

Lemma wf_grid_ext gs vd1 vd2 :
  wf_grid gs vd1 = true -> wf_grid gs vd2 = true ->
  (forall x y z, 0 <= x < gs -> 0 <= y < gs -> 0 <= z < gs ->
     cell_at vd1 x y z = cell_at vd2 x y z) ->
  vd1 = vd2.
Proof.
  rewrite !wf_grid_lookup. intros (Hgs & L1 & P1) (_ & L2 & P2) H.
  apply (list_eq_len _ _ _ L1 L2). intros i Hi.
  destruct (lookup_lt_is_Some_2 vd1 i) as [p1 Hp1]; [lia|].
  destruct (lookup_lt_is_Some_2 vd2 i) as [p2 Hp2]; [lia|].
  rewrite Hp1, Hp2. f_equal.
  destruct (P1 i p1 Hp1) as [Lp1 R1]. destruct (P2 i p2 Hp2) as [Lp2 R2].
  apply (list_eq_len _ _ _ Lp1 Lp2). intros j Hj.
  destruct (lookup_lt_is_Some_2 p1 j) as [r1 Hr1]; [lia|].
  destruct (lookup_lt_is_Some_2 p2 j) as [r2 Hr2]; [lia|].
  rewrite Hr1, Hr2. f_equal.
  apply (list_eq_len _ _ _ (R1 j r1 Hr1) (R2 j r2 Hr2)). intros k Hk.
  specialize (H (Z.of_nat i) (Z.of_nat j) (Z.of_nat k) ltac:(lia) ltac:(lia) ltac:(lia)).
  unfold cell_at in H. rewrite !zlookup_of_nat, Hp1, Hp2 in H. cbv iota in H.
  rewrite !zlookup_of_nat, Hr1, Hr2 in H. cbv iota in H.
  rewrite !zlookup_of_nat in H. exact H.
Qed.

Lemma length_zrange n : length (zrange n) = Z.to_nat n.
Proof. unfold zrange. rewrite length_map, length_seq. reflexivity. Qed.

Lemma wf_grid_of gs f : 0 <= gs -> wf_grid gs (grid_of gs f) = true.
Proof.
  intros Hgs. apply wf_grid_spec. unfold grid_of. rewrite length_map, length_zrange.
  split; [exact Hgs|]. split; [reflexivity|].
  intros plane Hp. apply in_map_iff in Hp as [x [<- _]]. rewrite length_map, length_zrange.
  split; [reflexivity|]. intros row Hr. apply in_map_iff in Hr as [y [<- _]].
  rewrite length_map, length_zrange. reflexivity.
Qed.

Lemma cell_at_grid_of gs f x y z :
  0 <= x < gs -> 0 <= y < gs -> 0 <= z < gs -> cell_at (grid_of gs f) x y z = Some (f x y z).
Proof.
  intros Hx Hy Hz. unfold cell_at, grid_of.
  rewrite zlookup_map_zrange. destruct (decide _); [|lia].
  rewrite zlookup_map_zrange. destruct (decide _); [|lia].
  rewrite zlookup_map_zrange. destruct (decide _); [|lia]. reflexivity.
Qed.

Lemma getVoxelColor_with_grid_of st f x y z :
  getVoxelColor (with_voxelData st (grid_of (gridSize st) f)) x y z =
    Ok (if out_of_bounds (gridSize st) x y z then None else f x y z).
Proof.
  unfold getVoxelColor, with_voxelData. cbn [voxelData gridSize].
  destruct (out_of_bounds (gridSize st) x y z) eqn:Hob; [reflexivity|].
  apply out_of_bounds_false in Hob as (Hx & Hy & Hz).
  unfold grid_of. rewrite zlookup_map_zrange. destruct (decide _); [|lia].
  rewrite zlookup_map_zrange. destruct (decide _); [|lia].
  rewrite zlookup_map_zrange. destruct (decide _); [|lia].
  reflexivity.
Qed.

(** ** Scenes *)

Lemma other_nodes_app l1 l2 : other_nodes (l1 ++ l2) = other_nodes l1 ++ other_nodes l2.
Proof. induction l1 as [|[i|s] l1 IH]; simpl; [reflexivity| |]; rewrite IH; reflexivity. Qed.

Lemma other_nodes_remove i sc :
  other_nodes (scene_remove (NVoxelMesh i) sc) = other_nodes sc.
Proof.
  induction sc as [|n sc IH]; [reflexivity|]. cbn [scene_remove].
  destruct (decide (n = NVoxelMesh i)) as [->|Hn]; [reflexivity|].
  destruct n as [j|s]; cbn [other_nodes]; rewrite IH; reflexivity.
Qed.

(** ** The index array *)

Lemma quad_indices_S n :
  quad_indices (S n) = quad_indices n ++
    [4 * Z.of_nat n; 4 * Z.of_nat n + 1; 4 * Z.of_nat n + 2;
     4 * Z.of_nat n + 2; 4 * Z.of_nat n + 1; 4 * Z.of_nat n + 3].
Proof.
  unfold quad_indices. rewrite seq_S, flat_map_app. cbn [flat_map].
  rewrite app_nil_r. reflexivity.
Qed.

Lemma corners_lengths off x y z d f :
  In f VoxelFaces ->
  length (flat_map (vertex_position off x y z) (corners f)) = 12%nat /\
  length (flat_map (fun _ : Z * Z * Z => dir_list d) (corners f)) = 12%nat.
Proof.
  intros Hf. destruct d as [[d0 d1] d2].
  simpl in Hf. repeat destruct Hf as [<-|Hf]; try contradiction; split; reflexivity.
Qed.

Lemma emit_face_quads st c off x y z acc f acc' n :
  In f VoxelFaces ->
  length (positions acc) = (12 * n)%nat -> length (normals acc) = (12 * n)%nat ->
  length (colors acc) = (12 * n)%nat -> indices acc = quad_indices n ->
  emit_face st c off x y z acc f = Ok acc' ->
  exists n', length (positions acc') = (12 * n')%nat /\ length (normals acc') = (12 * n')%nat /\
    length (colors acc') = (12 * n')%nat /\ indices acc' = quad_indices n'.
Proof.
  intros Hf HP HN HC HI. unfold emit_face.
  destruct (dir f) as [[dx dy] dz] eqn:Hd.
  destruct (getVoxelColor st (x + dx) (y + dy) (z + dz)) as [nc|e]; cbn [res_bind]; [|discriminate].
  destruct (truthy nc).
  - intros H. injection H as <-. exists n. auto.
  - intros H. injection H as <-.
    destruct (fold_push c off x y z (dx, dy, dz) (corners f) acc) as (P & N & C & I).
    rewrite (VoxelFaces_corners f Hf) in C.
    destruct (corners_lengths off x y z (dx, dy, dz) f Hf) as [Hl Hn].
    exists (S n). cbn [positions normals colors indices].
    rewrite P, N, C, I, !length_app, HP, HN, HC, HI, Hl, Hn, quad_indices_S.
    assert (Hq : Z.of_nat (12 * n) / 3 = 4 * Z.of_nat n).
    { rewrite Nat2Z.inj_mul. change (Z.of_nat 12) with 12.
      replace (12 * Z.of_nat n) with ((4 * Z.of_nat n) * 3) by ring.
      apply Z.div_mul. lia. }
    rewrite Hq. repeat split; lia.
Qed.

Lemma generateVoxelGeometry_quads color_set st b :
  generateVoxelGeometry color_set st = Ok b ->
  exists n, length (positions b) = (12 * n)%nat /\ length (normals b) = (12 * n)%nat /\
    length (colors b) = (12 * n)%nat /\ indices b = quad_indices n.
Proof.
  unfold generateVoxelGeometry.
  destruct (voxelData st) as [vd|]; [|discriminate].
  destruct (foldM _ _ _) as [[b' tc]|e] eqn:Hr; simpl; [|discriminate].
  intros H. injection H as <-.
  set (P := fun a : Buf * rgb => exists n,
    length (positions (fst a)) = (12 * n)%nat /\ length (normals (fst a)) = (12 * n)%nat /\
    length (colors (fst a)) = (12 * n)%nat /\ indices (fst a) = quad_indices n).
  change (P (b', tc)). revert Hr. apply foldM_inv; [exists 0%nat; simpl; auto|].
  intros a y a' _ Ha. apply foldM_inv; [exact Ha|].
  intros a0 z a0' _ Ha0. apply foldM_inv; [exact Ha0|].
  intros [b0 tc0] x a1 _ Hb0. unfold visit_cell.
  destruct (getVoxelColor st x y z) as [[[|ch s]|]|e]; cbn [res_bind]; try discriminate;
    try (intros H; injection H as <-; exact Hb0).
  cbv zeta. set (tc1 := match color_set tc0 (String ch s) with Some c => c | None => green end).
  destruct (foldM (emit_face st tc1 (centerOffset (gridSize st)) x y z) VoxelFaces b0)
    as [b1|e] eqn:Hf; cbn [res_bind]; [|discriminate].
  intros H. injection H as <-.
  revert Hf. apply (foldM_inv (fun b => P (b, tc1))); [exact Hb0|].
  intros acc f acc' Hin [n (HP & HN & HC & HI)]. eapply emit_face_quads; eassumption.
Qed.

(** ** Faces, seen through truthiness *)

Lemma face_list_truthy st st' :
  gridSize st = gridSize st' ->
  (forall x y z, res_truthy (getVoxelColor st x y z) = res_truthy (getVoxelColor st' x y z)) ->
  face_list st = face_list st'.
Proof.
  intros Hg Ht. unfold face_list. rewrite Hg.
  apply flat_map_ext. intros y. apply flat_map_ext. intros z. apply flat_map_ext. intros x.
  unfold cell_faces. rewrite Ht. destruct (res_truthy _); [|reflexivity].
  apply flat_map_ext. intros f. unfold neighbor. destruct (dir f) as [[dx dy] dz].
  rewrite Ht. reflexivity.
Qed.

Lemma right_face_in : In (mkFace (1, 0, 0) [(1, 1, 1); (1, 0, 1); (1, 1, 0); (1, 0, 0)]) VoxelFaces.
Proof. simpl. auto 10. Qed.

(** A visible cell has a visible face: walk in the [+x] direction to the
    last visible cell of the run. *)
Lemma face_list_nonempty st x y z :
  res_truthy (getVoxelColor st x y z) = true -> face_list st <> [].
Proof.
  remember (Z.to_nat (gridSize st - x)) as k eqn:Hk. revert x Hk.
  induction k as [|k IH]; intros x Hk Ht;
    pose proof (get_truthy_in_bounds st x y z Ht) as (Hx & Hy & Hz).
  - lia.
  - destruct (res_truthy (getVoxelColor st (x + 1) y z)) eqn:Hn.
    + apply (IH (x + 1)); [lia|exact Hn].
    + intros Hnil.
      assert (Hin : In (x, y, z, mkFace (1, 0, 0) [(1, 1, 1); (1, 0, 1); (1, 1, 0); (1, 0, 0)])
                      (face_list st)).
      { apply in_face_list. split; [auto|]. split; [exact Ht|]. split; [apply right_face_in|].
        unfold neighbor. cbn [dir]. rewrite !Z.add_0_r. exact Hn. }
      rewrite Hnil in Hin. exact Hin.
Qed.

Lemma res_truthy_iff (r : res cell) :
  res_truthy r = true <-> exists s, r = Ok (Some s) /\ s <> ""%string.
Proof.
  split.
  - destruct r as [[[|a s]|]|e]; simpl; intros H; try discriminate.
    exists (String a s). split; [reflexivity|discriminate].
  - intros [s' [-> Hs]]. destruct s' as [|a s]; [contradiction|reflexivity].
Qed.

(** ** Vertex positions *)

Lemma VoxelFaces_corner_bits f p0 p1 p2 :
  In f VoxelFaces -> In (p0, p1, p2) (corners f) ->
  0 <= p0 <= 1 /\ 0 <= p1 <= 1 /\ 0 <= p2 <= 1.
Proof.
  intros Hf Hp. simpl in Hf.
  repeat destruct Hf as [<-|Hf]; try contradiction; simpl in Hp;
    repeat destruct Hp as [Hp|Hp]; try contradiction; injection Hp as <- <- <-; lia.
Qed.

Lemma coord_bounds gs a :
  0 <= a <= gs ->
  ((1 # 2) - inject_Z gs / 2 <= inject_Z a - centerOffset gs <= inject_Z gs / 2 + (1 # 2))%Q.
Proof.
  intros [H1 H2]. unfold centerOffset.
  assert (Q1 : (0 <= inject_Z a)%Q) by (change 0%Q with (inject_Z 0); rewrite <- Zle_Qle; lia).
  assert (Q2 : (inject_Z a <= inject_Z gs)%Q) by (rewrite <- Zle_Qle; lia).
  set (h := (inject_Z gs / 2)%Q).
  assert (Hh : (h * 2 == inject_Z gs)%Q) by (unfold h; field).
  split; lra.
Qed.

Lemma generateVoxelGeometry_bounds color_set st b :
  generateVoxelGeometry color_set st = Ok b ->
  Forall (fun q => (1 # 2) - inject_Z (gridSize st) / 2 <= q <=
                   inject_Z (gridSize st) / 2 + (1 # 2))%Q (positions b).
Proof.
  unfold generateVoxelGeometry.
  destruct (voxelData st) as [vd|]; [|discriminate].
  set (gs := gridSize st).
  set (B := fun q => ((1 # 2) - inject_Z gs / 2 <= q <= inject_Z gs / 2 + (1 # 2))%Q).
  destruct (foldM _ _ _) as [[b' tc]|e] eqn:Hr; simpl; [|discriminate].
  intros H. injection H as <-.
  set (P := fun a : Buf * rgb => Forall B (positions (fst a))).
  change (P (b', tc)). revert Hr. apply foldM_inv; [apply List.Forall_nil|].
  intros a y a' Hy Ha. apply foldM_inv; [exact Ha|].
  intros a0 z a0' Hz Ha0. apply foldM_inv; [exact Ha0|].
  intros [b0 tc0] x a1 Hx Hb0. apply in_zrange in Hx, Hy, Hz. unfold visit_cell.
  destruct (getVoxelColor st x y z) as [[[|ch s]|]|e]; cbn [res_bind]; try discriminate;
    try (intros H; injection H as <-; exact Hb0).
  cbv zeta. set (tc1 := match color_set tc0 (String ch s) with Some c => c | None => green end).
  destruct (foldM _ VoxelFaces b0) as [b1|e] eqn:Hf; cbn [res_bind]; [|discriminate].
  intros H. injection H as <-.
  revert Hf. apply (foldM_inv (fun b => P (b, tc1))); [exact Hb0|].
  intros acc f acc' Hf Hacc. unfold emit_face.
  destruct (dir f) as [[dx dy] dz] eqn:Hd.
  destruct (getVoxelColor st _ _ _) as [nc|e]; cbn [res_bind]; [|discriminate].
  destruct (truthy nc); intros H; injection H as <-; [exact Hacc|].
  destruct (fold_push tc1 (centerOffset gs) x y z (dx, dy, dz) (corners f) acc) as (Pp & _).
  unfold P. cbn [fst positions]. rewrite Pp. apply Forall_app. split; [exact Hacc|].
  apply List.Forall_forall. intros q Hq. apply in_flat_map in Hq as [[[p0 p1] p2] [Hp Hq]].
  destruct (VoxelFaces_corner_bits f p0 p1 p2 Hf Hp) as (B0 & B1 & B2).
  simpl in Hq. repeat destruct Hq as [<-|Hq]; try contradiction; apply coord_bounds; lia.
Qed.

(** ** [resetVoxelData] *)

(** X1: with a valid array length, [resetVoxelData] turns a missing grid, a
    grid of the wrong length and a well-formed grid alike into the fresh
    cube of [null]s; afterwards every read returns [null]. *)
Theorem resetVoxelData_fresh_grid st :
  0 <= gridSize st < 4294967296 ->
  (voxelData st = None \/
   exists vd, voxelData st = Some vd /\
     (Z.of_nat (length vd) <> gridSize st \/ wf_grid (gridSize st) vd = true)) ->
  resetVoxelData st =
    (Ok tt, with_voxelData st (grid_of (gridSize st) (fun _ _ _ => None))) /\
  wf_state (with_voxelData st (grid_of (gridSize st) (fun _ _ _ => None))) = true /\
  forall x y z,
    getVoxelColor (with_voxelData st (grid_of (gridSize st) (fun _ _ _ => None))) x y z = Ok None.
Proof.
  intros Hgs Hcase.
  assert (Halloc : new_grid (gridSize st) = Ok (grid_of (gridSize st) (fun _ _ _ => None))).
  { unfold new_grid. destruct Hgs as [H1 H2].
    apply Z.leb_le in H1. apply Z.ltb_lt in H2. rewrite H1, H2. reflexivity. }
  split; [|split].
  - unfold resetVoxelData. cbv zeta. rewrite Halloc.
    destruct Hcase as [-> | [vd [Hvd [Hlen | Hwf]]]]; [reflexivity| |].
    + rewrite Hvd. apply Z.eqb_neq in Hlen. rewrite Hlen. reflexivity.
    + rewrite Hvd.
      assert (Hl : Z.of_nat (length vd) = gridSize st) by (apply wf_grid_spec in Hwf; lia).
      apply Z.eqb_eq in Hl. rewrite Hl.
      destruct (reset_spec st vd Hvd Hwf) as [vd0 (E & Hwf0 & Hnull)].
      rewrite E. do 3 f_equal.
      apply (wf_grid_ext (gridSize st)); [exact Hwf0|apply wf_grid_of; lia|].
      intros x y z Hx Hy Hz. rewrite Hnull, cell_at_grid_of by assumption. reflexivity.
  - unfold wf_state. simpl. apply wf_grid_of. lia.
  - intros x y z. rewrite getVoxelColor_with_grid_of.
    destruct (out_of_bounds _ _ _ _); reflexivity.
Qed.

(** X2: with a negative [gridSize], [resetVoxelData] throws the
    [RangeError] of [Array(gridSize)] and changes nothing, whatever the
    grid held. *)
Theorem resetVoxelData_negative_size st :
  gridSize st < 0 -> resetVoxelData st = (Throw "Invalid array length", st).
Proof.
  intros H. unfold resetVoxelData, new_grid. cbv zeta.
  assert (E : (0 <=? gridSize st) = false) by (apply Z.leb_gt; exact H). rewrite E.
  cbn [andb]. destruct (voxelData st) as [vd|]; [|reflexivity].
  assert (E2 : (Z.of_nat (length vd) =? gridSize st) = false) by (apply Z.eqb_neq; lia).
  rewrite E2. reflexivity.
Qed.

(** ** [disposeVoxelResources] *)

(** X3: [disposeVoxelResources] releases the mesh's geometry and material
    and forgets the handle, but leaves the mesh in the scene; the next
    [updateVoxelMesh] no longer knows it and does not remove it, so the
    scene then holds the released mesh besides the new one, if any. *)
Theorem disposeVoxelResources_leaves_node_in_scene color_set st sc i :
  scene st = Some sc -> voxelMesh st = Some i -> voxel_meshes sc = [i] ->
  let st1 := snd (disposeVoxelResources st) in
  let st2 := snd (updateVoxelMesh color_set st1) in
  fst (disposeVoxelResources st) = Ok tt /\
  voxelMesh st1 = None /\ scene st1 = Some sc /\
  rlog st1 = rlog st ++ [EDisposeGeometry i; EDisposeMaterial i] /\
  exists sc2, scene st2 = Some sc2 /\ voxel_meshes sc2 = i :: opt_list (voxelMesh st2).
Proof.
  intros Hsc Hm Hv st1 st2. subst st1 st2. unfold disposeVoxelResources. rewrite Hm.
  cbn [fst snd voxelMesh scene rlog]. split; [reflexivity|]. split; [reflexivity|].
  split; [exact Hsc|]. split; [reflexivity|].
  unfold updateVoxelMesh. cbn [scene voxelMesh]. rewrite Hsc.
  destruct (generateVoxelGeometry _ _) as [b|e]; [destruct (0 <? _)%nat|];
    cbn [snd scene voxelMesh opt_list]; eexists; (split; [reflexivity|]).
  - rewrite voxel_meshes_app, Hv. reflexivity.
  - exact Hv.
  - exact Hv.
Qed.

(** ** [updateVoxelMesh] *)

(** X4: with a scene but no grid, [updateVoxelMesh] throws ["Voxel data
    not initialized"] after it has already removed and released the old
    mesh: the scene is left with no voxel mesh and the handle is [null]. *)
Theorem updateVoxelMesh_uninitialized_grid color_set st sc :
  scene st = Some sc -> voxelData st = None -> voxel_meshes sc = opt_list (voxelMesh st) ->
  exists sc1,
    updateVoxelMesh color_set st =
      (Throw "Voxel data not initialized",
       mkState (interpreter st) (Some sc1) None None (gridSize st) (next_id st)
         (rlog st ++ dispose_events (voxelMesh st)) (outbox st)) /\
    voxel_meshes sc1 = [] /\ other_nodes sc1 = other_nodes sc.
Proof.
  intros Hsc Hvd Hinv. unfold updateVoxelMesh. rewrite Hsc.
  unfold generateVoxelGeometry at 1. cbn [voxelData]. rewrite Hvd.
  eexists. split; [reflexivity|].
  destruct (voxelMesh st) as [m|]; cbn [opt_list] in Hinv.
  - split; [apply voxel_meshes_remove; exact Hinv|apply other_nodes_remove].
  - split; [exact Hinv|reflexivity].
Qed.

(** X5: [updateVoxelMesh] keeps the scene's other nodes (lights and
    helpers) in order, and leaves the interpreter, the grid, its size and
    the posted messages as they were, whether or not it throws. *)
Theorem updateVoxelMesh_keeps_other_nodes color_set st sc :
  scene st = Some sc ->
  let st' := snd (updateVoxelMesh color_set st) in
  exists sc', scene st' = Some sc' /\ other_nodes sc' = other_nodes sc /\
    interpreter st' = interpreter st /\ voxelData st' = voxelData st /\
    gridSize st' = gridSize st /\ outbox st' = outbox st.
Proof.
  intros Hsc st'. subst st'. unfold updateVoxelMesh. rewrite Hsc.
  assert (Hsc1 : other_nodes (match voxelMesh st with
                              | Some i => scene_remove (NVoxelMesh i) sc
                              | None => sc end) = other_nodes sc)
    by (destruct (voxelMesh st); [apply other_nodes_remove|reflexivity]).
  destruct (generateVoxelGeometry _ _) as [b|e]; [destruct (0 <? _)%nat|];
    cbn [snd scene interpreter voxelData gridSize outbox]; eexists;
    (split; [reflexivity|]); (split; [|auto]).
  - rewrite other_nodes_app, Hsc1. apply app_nil_r.
  - exact Hsc1.
  - exact Hsc1.
Qed.

Lemma mesh_count_iff_visible color_set st sc vd :
  scene st = Some sc -> voxel_meshes sc = opt_list (voxelMesh st) ->
  voxelData st = Some vd -> wf_grid (gridSize st) vd = true ->
  mesh_count (snd (updateVoxelMesh color_set st)) = 1%nat <->
  exists x y z s, getVoxelColor st x y z = Ok (Some s) /\ s <> ""%string.
Proof.
  intros Hsc Hinv Hvd Hwf.
  destruct (updateVoxelMesh_step color_set st sc Hsc Hinv)
    as [sc1 [created (Hs1 & _ & _ & _ & _ & _ & Hn1)]].
  assert (Hw : wf_state st = true) by (unfold wf_state; rewrite Hvd; exact Hwf).
  destruct (generateVoxelGeometry_faces color_set st Hw) as [b [Hb (_ & _ & _ & HI)]].
  unfold mesh_count. rewrite Hs1, Hn1, Hb. cbn [indices empty_buf length] in HI. rewrite HI.
  split.
  - intros H. destruct (face_list st) as [|[[[x y] z] f] fl] eqn:Hfl; [discriminate|].
    assert (Hin : In (x, y, z, f) (face_list st)) by (rewrite Hfl; left; reflexivity).
    apply in_face_list in Hin as (_ & Ht & _).
    apply res_truthy_iff in Ht as [s Hs]. exists x, y, z, s. exact Hs.
  - intros [x [y [z [s Hs]]]].
    assert (Ht : res_truthy (getVoxelColor st x y z) = true)
      by (apply res_truthy_iff; exists s; exact Hs).
    pose proof (face_list_nonempty st x y z Ht) as Hne.
    destruct (face_list st); [contradiction|]. reflexivity.
Qed.

(** X8: after [updateVoxelMesh] on a well-formed grid, the scene holds a
    voxel mesh exactly when some cell holds a non-empty string. *)
Theorem updateVoxelMesh_mesh_iff_visible_cell color_set st sc vd :
  scene st = Some sc -> voxel_meshes sc = opt_list (voxelMesh st) ->
  voxelData st = Some vd -> wf_grid (gridSize st) vd = true ->
  mesh_count (snd (updateVoxelMesh color_set st)) = 1%nat <->
  exists x y z s, getVoxelColor st x y z = Ok (Some s) /\ s <> ""%string.
Proof. exact (mesh_count_iff_visible color_set st sc vd). Qed.

(** ** [generateVoxelGeometry] *)

(** X6: the buffer built by [generateVoxelGeometry] is [n] quads: [12 n]
    entries in [positions], [normals] and [colors], and the index array
    draws quad [k] (vertices [4k .. 4k+3]) as the two triangles
    [(4k, 4k+1, 4k+2)] and [(4k+2, 4k+1, 4k+3)]. *)
Theorem generateVoxelGeometry_quad_indices color_set st b :
  generateVoxelGeometry color_set st = Ok b ->
  exists n, length (positions b) = (12 * n)%nat /\ length (normals b) = (12 * n)%nat /\
    length (colors b) = (12 * n)%nat /\ indices b = quad_indices n.
Proof. apply generateVoxelGeometry_quads. Qed.

(** X7: the shape of the mesh depends on the grid only through which cells
    hold a non-empty string: two well-formed grids of the same size with
    the same such cells give the same positions, normals and indices,
    whatever the colour strings and the colour parser. *)
Theorem generateVoxelGeometry_shape_from_truthiness color_set color_set' st st' :
  wf_state st = true -> wf_state st' = true -> gridSize st = gridSize st' ->
  (forall x y z, res_truthy (getVoxelColor st x y z) = res_truthy (getVoxelColor st' x y z)) ->
  exists b b', generateVoxelGeometry color_set st = Ok b /\
    generateVoxelGeometry color_set' st' = Ok b' /\
    positions b = positions b' /\ normals b = normals b' /\ indices b = indices b'.
Proof.
  intros Hw Hw' Hg Ht.
  destruct (generateVoxelGeometry_faces color_set st Hw) as [b [Hb (HP & HN & _)]].
  destruct (generateVoxelGeometry_faces color_set' st' Hw') as [b' [Hb' (HP' & HN' & _)]].
  exists b, b'. split; [exact Hb|]. split; [exact Hb'|].
  rewrite (face_list_truthy st st' Hg Ht) in HP, HN. rewrite Hg in HP.
  assert (Pe : positions b = positions b') by (rewrite HP, HP'; reflexivity).
  split; [exact Pe|]. split; [rewrite HN, HN'; reflexivity|].
  destruct (generateVoxelGeometry_quads color_set st b Hb) as [n (Ln & _ & _ & In)].
  destruct (generateVoxelGeometry_quads color_set' st' b' Hb') as [n' (Ln' & _ & _ & In')].
  rewrite In, In'. f_equal. rewrite Pe in Ln. lia.
Qed.

(** X9: every vertex coordinate lies in
    [[1/2 - gridSize/2, 1/2 + gridSize/2]]: the mesh fits in the cube of
    side [gridSize] centred at [(1/2, 1/2, 1/2)], half a unit off the
    origin on each axis. *)
Theorem generateVoxelGeometry_positions_bounded color_set st b :
  generateVoxelGeometry color_set st = Ok b ->
  Forall (fun q => (1 # 2) - inject_Z (gridSize st) / 2 <= q <=
                   inject_Z (gridSize st) / 2 + (1 # 2))%Q (positions b).
Proof. apply generateVoxelGeometry_bounds. Qed.

(** ** [runPythonCode] *)
(** X10: on a worker without interpreter, scene or grid, [runPythonCode]
    posts one error message, ["Code execution failed: Interpreter, scene,
    or voxelData not initialized"], changes nothing else and does not
    suspend. *)
Theorem runPythonCode_not_initialized color_set (ast : Type) interp_parse interp_eval code st :
  initialized st = false ->
  runPythonCode color_set ast interp_parse interp_eval code st =
    (Ok None, post st (MError
       "Code execution failed: Interpreter, scene, or voxelData not initialized"%string)) /\
  run_alone color_set ast interp_parse interp_eval code st =
    (Ok tt, post st (MError
       "Code execution failed: Interpreter, scene, or voxelData not initialized"%string)).
Proof.
  intros H.
  assert (E : runPythonCode color_set ast interp_parse interp_eval code st =
    (Ok None, post st (MError
       "Code execution failed: Interpreter, scene, or voxelData not initialized"%string))).
  { unfold runPythonCode, catch_run, mtry, mbind, mgets. rewrite H. reflexivity. }
  split; [exact E|]. unfold run_alone. rewrite (mbind_ok _ _ _ _ _ E).
  destruct (length _); reflexivity.
Qed.

(** X12: a run that parses posts exactly one warning per cell where [draw]
    throws, in the loop order over [x], [y], [z], then the success message,
    and nothing else. *)
Theorem run_alone_messages color_set (ast : Type) interp_parse interp_eval code (a : ast) st vd :
  initialized st = true -> voxelData st = Some vd -> wf_grid (gridSize st) vd = true ->
  interp_parse code = Ok a ->
  exists st', run_alone color_set ast interp_parse interp_eval code st = (Ok tt, st') /\
    outbox st' = outbox st ++ flat_map (cell_warning ast interp_eval a (gridSize st))
                                (loop_cells (gridSize st)) ++ [MSuccess].
Proof.
  intros Hinit Hvd Hwf Hparse.
  destruct (run_alone_spec color_set ast interp_parse interp_eval code a st vd
              Hinit Hvd Hwf Hparse) as [vd' [st_m (_ & _ & _ & _ & Ho & Hrun)]].
  exists (post st_m MSuccess). split; [exact Hrun|].
  unfold post. cbn [outbox]. rewrite Ho, app_assoc. reflexivity.
Qed.

(** X13: the outcome of a run does not depend on what the grid held
    before it: from two well-formed grids that differ only in their cells,
    the same code ends in the same state. *)
Theorem run_alone_forgets_old_grid color_set (ast : Type) interp_parse interp_eval
    code (a : ast) st vd vd2 :
  initialized st = true -> voxelData st = Some vd -> wf_grid (gridSize st) vd = true ->
  wf_grid (gridSize st) vd2 = true -> interp_parse code = Ok a ->
  run_alone color_set ast interp_parse interp_eval code (with_voxelData st vd2) =
  run_alone color_set ast interp_parse interp_eval code st.
Proof.
  intros Hinit Hvd Hwf Hwf2 Hparse.
  set (st2 := with_voxelData st vd2).
  assert (Hinit2 : initialized st2 = true).
  { unfold initialized in *. unfold st2, with_voxelData. cbn. rewrite Hvd in Hinit. exact Hinit. }
  destruct (run_alone_spec color_set ast interp_parse interp_eval code a st vd
              Hinit Hvd Hwf Hparse) as [v1 [m1 (Hw1 & Hc1 & Hu1 & _ & _ & Hr1)]].
  destruct (run_alone_spec color_set ast interp_parse interp_eval code a st2 vd2
              Hinit2 eq_refl Hwf2 Hparse) as [v2 [m2 (Hw2 & Hc2 & Hu2 & _ & _ & Hr2)]].
  assert (v2 = v1) as ->.
  { apply (wf_grid_ext (gridSize st)); [exact Hw2|exact Hw1|].
    intros x y z Hx Hy Hz. rewrite (Hc1 x y z Hx Hy Hz), (Hc2 x y z Hx Hy Hz). reflexivity. }
  rewrite Hr1, Hr2.
  unfold st2, with_voxelData in Hu2.
  cbn [interpreter scene voxelMesh gridSize next_id rlog outbox] in Hu2.
  rewrite Hu1 in Hu2. injection Hu2 as <-. reflexivity.
Qed.

(** X11: on an initialized worker with [gridSize <= 0], a run whose code
    parses never suspends: it rebuilds the mesh at once, leaving no voxel
    mesh, and posts the success message. *)
Theorem runPythonCode_empty_grid_no_yield color_set (ast : Type) interp_parse interp_eval
    code (a : ast) st vd :
  initialized st = true -> voxelData st = Some vd -> gridSize st <= 0 ->
  interp_parse code = Ok a ->
  exists st', updateVoxelMesh color_set st = (Ok tt, st') /\
    runPythonCode color_set ast interp_parse interp_eval code st = (Ok None, post st' MSuccess) /\
    voxelMesh st' = None /\ voxelData st' = Some vd /\ outbox st' = outbox st.
Proof.
  intros Hinit Hvd Hgs Hparse.
  assert (Hz : zrange (gridSize st) = [])
    by (unfold zrange; replace (Z.to_nat (gridSize st)) with 0%nat by lia; reflexivity).
  destruct (scene st) as [sc|] eqn:Hsc;
    [|unfold initialized in Hinit; rewrite Hsc in Hinit; destruct (interpreter st); discriminate].
  assert (Hgen : forall st1, voxelData st1 = Some vd -> gridSize st1 = gridSize st ->
            generateVoxelGeometry color_set st1 = Ok empty_buf).
  { intros st1 H1 H2. unfold generateVoxelGeometry. rewrite H1. cbv zeta. rewrite H2, Hz.
    reflexivity. }
  assert (Hu : exists st', updateVoxelMesh color_set st = (Ok tt, st') /\
            voxelMesh st' = None /\ voxelData st' = Some vd /\ outbox st' = outbox st).
  { unfold updateVoxelMesh. rewrite Hsc. rewrite Hgen by (cbn; auto).
    cbn. eexists. split; [reflexivity|]. cbn. auto. }
  destruct Hu as [st' (Hu & Hm & Hv & Ho)]. exists st'.
  split; [exact Hu|]. split; [|auto].
  unfold runPythonCode, catch_run, mtry, mbind at 1, mgets. rewrite Hinit. cbn [negb].
  rewrite (mbind_ok (mgets gridSize) _ st (gridSize st) st) by reflexivity.
  rewrite Hz. cbn [mfor]. unfold mret at 1, mbind at 1.
  rewrite (mbind_ok (mlift (interp_parse code)) _ st a st)
    by (unfold mlift; rewrite Hparse; reflexivity).
  unfold rows. rewrite Hz. cbn [list_prod run_rows].
  rewrite (mbind_ok _ (fun _ => _) _ _ _ Hu). reflexivity.
Qed.

(** * The worker's lifecycle handlers *)

Lemma getVoxelColor_empty_grid st gs x y z :
  voxelData st = Some (grid_of gs (fun _ _ _ => None)) -> gridSize st = gs ->
  getVoxelColor st x y z = Ok None.
Proof.
  intros Hvd Hg. unfold getVoxelColor. rewrite Hvd, Hg.
  destruct (out_of_bounds gs x y z) eqn:Hob; [reflexivity|].
  apply out_of_bounds_false in Hob as (Hx & Hy & Hz).
  unfold grid_of. rewrite zlookup_map_zrange. destruct (decide _); [|lia].
  rewrite zlookup_map_zrange. destruct (decide _); [|lia].
  rewrite zlookup_map_zrange. destruct (decide _); [|lia].
  reflexivity.
Qed.

Lemma face_list_empty_grid st gs :
  voxelData st = Some (grid_of gs (fun _ _ _ => None)) -> gridSize st = gs ->
  face_list st = [].
Proof.
  intros Hvd Hg.
  destruct (face_list st) as [|[[[x y] z] f] fl] eqn:Hfl; [reflexivity|].
  assert (Hin : In (x, y, z, f) (face_list st)) by (rewrite Hfl; left; reflexivity).
  apply in_face_list in Hin as (_ & Ht & _).
  rewrite (getVoxelColor_empty_grid st gs x y z Hvd Hg) in Ht. discriminate.
Qed.

Lemma updateVoxelMesh_empty_grid color_set st gs :
  scene st = Some [] -> voxelData st = Some (grid_of gs (fun _ _ _ => None)) ->
  gridSize st = gs -> 0 <= gs ->
  updateVoxelMesh color_set st =
    (Ok tt, mkState (interpreter st) (Some []) (voxelData st) None gs (S (next_id st))
              (rlog st ++ dispose_events (voxelMesh st) ++
                 [ENewGeometry (next_id st); EDisposeGeometry (next_id st)]) (outbox st)).
Proof.
  intros Hsc Hvd Hg Hgs. unfold updateVoxelMesh. rewrite Hsc.
  replace (match voxelMesh st with
           | Some i => scene_remove (NVoxelMesh i) []
           | None => [] end) with (@nil node) by (destruct (voxelMesh st); reflexivity).
  match goal with |- context [generateVoxelGeometry color_set ?s] =>
    assert (Hw : wf_state s = true)
      by (unfold wf_state; cbn; rewrite Hvd, Hg; apply wf_grid_of; exact Hgs);
    destruct (generateVoxelGeometry_faces color_set s Hw) as [b [Hb (_ & _ & _ & HI)]];
    rewrite Hb;
    rewrite (face_list_empty_grid s gs) in HI by (cbn; auto)
  end.
  cbn [indices empty_buf length] in HI. rewrite HI. cbn. rewrite Hg, <- app_assoc. reflexivity.
Qed.

Lemma new_grid_ok gs :
  0 <= gs < 4294967296 -> new_grid gs = Ok (grid_of gs (fun _ _ _ => None)).
Proof.
  intros H. unfold new_grid.
  replace ((0 <=? gs) && (gs <? 4294967296)) with true; [reflexivity|].
  symmetry. apply andb_true_intro. split; [apply Z.leb_le|apply Z.ltb_lt]; lia.
Qed.

Lemma init_ok color_set u1 u2 gs w :
  0 <= gs < 4294967296 ->
  init color_set (Ok u1) (Ok u2) gs w =
    mkWorker (mkState true (Some scene_helpers) (Some (grid_of gs (fun _ _ _ => None))) None gs
                (S (next_id (core w)))
                (rlog (core w) ++ dispose_events (voxelMesh (core w)) ++
                   [ENewGeometry (next_id (core w)); EDisposeGeometry (next_id (core w))]) [])
      true true true (posted w ++ map WCore (outbox (core w)) ++ [WStatus "init"]).
Proof.
  intros Hgs. unfold init. rewrite (new_grid_ok gs Hgs). unfold lift_core.
  rewrite (updateVoxelMesh_empty_grid color_set _ gs) by (cbn; auto; lia).
  cbn. unfold wpost. cbn. rewrite <- app_assoc. reflexivity.
Qed.

Lemma init_bad_size color_set u1 u2 gs w :
  gs < 0 \/ 4294967296 <= gs ->
  init color_set (Ok u1) (Ok u2) gs w =
    mkWorker (mkState true (Some []) (voxelData (core w)) (voxelMesh (core w)) gs
                (next_id (core w)) (rlog (core w)) (outbox (core w)))
      true true (animating w)
      (posted w ++ [WCore (MError "Initialization failed: Invalid array length")]).
Proof.
  intros Hgs. unfold init, new_grid.
  replace ((0 <=? gs) && (gs <? 4294967296)) with false; [reflexivity|].
  symmetry. apply andb_false_iff.
  destruct Hgs; [left; apply Z.leb_gt|right; apply Z.ltb_ge]; lia.
Qed.

(** X14: [init] with a valid array length, a renderer and controls, from
    any worker state: a fresh scene holding only the two lights and two
    helpers (no voxel mesh, nothing of an earlier scene), an all-[null]
    cube of side [gridSize], no mesh handle, the earlier mesh released,
    the render loop running, and one [init] success message. *)
Theorem init_builds_fresh_scene color_set gs w :
  0 <= gs < 4294967296 -> outbox (core w) = [] ->
  let w' := init color_set (Ok tt) (Ok tt) gs w in
  scene (core w') = Some scene_helpers /\
  voxelData (core w') = Some (grid_of gs (fun _ _ _ => None)) /\
  voxelMesh (core w') = None /\ gridSize (core w') = gs /\ initialized (core w') = true /\
  rlog (core w') = rlog (core w) ++ dispose_events (voxelMesh (core w)) ++
    [ENewGeometry (next_id (core w)); EDisposeGeometry (next_id (core w))] /\
  animating w' = true /\ posted w' = posted w ++ [WStatus "init"].
Proof.
  intros Hgs Ho. cbv zeta. rewrite (init_ok color_set tt tt gs w Hgs), Ho. cbn.
  repeat split.
Qed.

(** X15: after a successful [init], a run of code that parses completes: it
    posts one warning per cell where [draw] throws and then the success
    message, and the scene then holds a voxel mesh exactly when [draw]
    gave a non-empty string (or [true]) at some cell. *)
Theorem init_then_run color_set (ast : Type) interp_parse interp_eval code (a : ast) gs w :
  0 <= gs < 4294967296 -> outbox (core w) = [] -> interp_parse code = Ok a ->
  let st := core (init color_set (Ok tt) (Ok tt) gs w) in
  exists st', run_alone color_set ast interp_parse interp_eval code st = (Ok tt, st') /\
    outbox st' = flat_map (cell_warning ast interp_eval a gs) (loop_cells gs) ++ [MSuccess] /\
    (mesh_count st' = 1%nat <->
     exists x y z s, 0 <= x < gs /\ 0 <= y < gs /\ 0 <= z < gs /\
       cell_value ast interp_eval a gs (x, y, z) = Some s /\ s <> ""%string).
Proof.
  intros Hgs Ho Hparse. cbv zeta. rewrite (init_ok color_set tt tt gs w Hgs), Ho.
  set (st := mkState _ _ _ _ _ _ _ _).
  assert (Hwf : wf_grid (gridSize st) (grid_of gs (fun _ _ _ => None)) = true)
    by (apply wf_grid_of; lia).
  destruct (run_alone_spec color_set ast interp_parse interp_eval code a st _
              eq_refl eq_refl Hwf Hparse) as [vd' [st_m (Hwf' & Hc & Hu & _ & Ho' & Hrun)]].
  exists (post st_m MSuccess). split; [exact Hrun|]. split.
  { unfold post. cbn [outbox]. rewrite Ho'. reflexivity. }
  cbn [gridSize st] in Hwf', Hc, Hu.
  set (st2 := mkState _ _ _ _ _ _ _ _) in Hu.
  assert (Hm : mesh_count (post st_m MSuccess) = mesh_count (snd (updateVoxelMesh color_set st2)))
    by (rewrite Hu; reflexivity).
  rewrite Hm, (mesh_count_iff_visible color_set st2 scene_helpers vd' eq_refl eq_refl eq_refl Hwf').
  split.
  - intros [x [y [z [s [Hs Hne]]]]].
    rewrite (get_wf st2 vd' x y z eq_refl Hwf') in Hs. cbn [gridSize st2] in Hs.
    destruct (out_of_bounds gs x y z) eqn:Hob; [discriminate|].
    apply out_of_bounds_false in Hob as (Hx & Hy & Hz).
    rewrite (Hc x y z Hx Hy Hz) in Hs. injection Hs as Hs.
    exists x, y, z, s. auto.
  - intros [x [y [z [s (Hx & Hy & Hz & Hs & Hne)]]]].
    exists x, y, z, s. split; [|exact Hne].
    rewrite (get_wf st2 vd' x y z eq_refl Hwf'). cbn [gridSize st2].
    assert (Hob : out_of_bounds gs x y z = false) by (apply out_of_bounds_false; auto).
    rewrite Hob.
    rewrite (Hc x y z Hx Hy Hz), Hs. reflexivity.
Qed.

(** X16: [init] with a grid size that is no valid array length posts
    ["Initialization failed: Invalid array length"] and starts no render
    loop; it leaves a new empty scene, the old grid and the old mesh
    handle. A worker that had no grid still has none, and a run on it is
    refused as not initialized. *)
Theorem init_invalid_grid_size color_set (ast : Type) interp_parse interp_eval code gs w :
  gs < 0 \/ 4294967296 <= gs ->
  let w' := init color_set (Ok tt) (Ok tt) gs w in
  posted w' = posted w ++ [WCore (MError "Initialization failed: Invalid array length")] /\
  animating w' = animating w /\ scene (core w') = Some [] /\
  voxelData (core w') = voxelData (core w) /\ voxelMesh (core w') = voxelMesh (core w) /\
  gridSize (core w') = gs /\
  (voxelData (core w) = None ->
   runPythonCode color_set ast interp_parse interp_eval code (core w') =
     (Ok None, post (core w') (MError
       "Code execution failed: Interpreter, scene, or voxelData not initialized"))).
Proof.
  intros Hgs. cbv zeta. rewrite (init_bad_size color_set tt tt gs w Hgs). cbn [core posted animating].
  split; [reflexivity|]. split; [reflexivity|]. split; [reflexivity|].
  split; [reflexivity|]. split; [reflexivity|]. split; [reflexivity|].
  intros Hv. unfold runPythonCode, catch_run, mtry, mbind, mgets, initialized.
  cbn [interpreter scene voxelData]. rewrite Hv. reflexivity.
Qed.

(** X17: [terminate] removes the voxel mesh from the scene and releases its
    geometry and material, stops the render loop, drops the renderer and
    camera and posts one [terminate] success; afterwards every run is
    refused as not initialized. *)
Theorem terminate_releases_and_blocks_runs color_set (ast : Type) interp_parse interp_eval
    code w sc i :
  scene (core w) = Some sc -> voxelMesh (core w) = Some i ->
  let w' := terminate w in
  rlog (core w') = rlog (core w) ++ [ESceneRemove i; EDisposeGeometry i; EDisposeMaterial i] /\
  animating w' = false /\ three w' = false /\ camera w' = false /\
  posted w' = posted w ++ [WStatus "terminate"] /\
  runPythonCode color_set ast interp_parse interp_eval code (core w') =
    (Ok None, post (core w') (MError
       "Code execution failed: Interpreter, scene, or voxelData not initialized")).
Proof.
  intros Hsc Hm. cbv zeta. unfold terminate, stopRenderLoop. cbn [core posted]. rewrite Hm, Hsc.
  cbn [app rlog animating three camera posted].
  split; [reflexivity|]. split; [reflexivity|]. split; [reflexivity|]. split; [reflexivity|].
  split; [reflexivity|].
  unfold runPythonCode, catch_run, mtry, mbind, mgets. reflexivity.
Qed.

(** X18: a second [terminate] releases nothing more and changes no state:
    it only posts another [terminate] success. *)
Theorem terminate_twice w :
  core (terminate (terminate w)) = core (terminate w) /\
  posted (terminate (terminate w)) = posted (terminate w) ++ [WStatus "terminate"].
Proof.
  unfold terminate at 1, stopRenderLoop at 1. cbn [core voxelMesh posted].
  rewrite app_nil_r. split; reflexivity.
Qed.

(** * Witnesses of the properties above *)

Lemma truthy_red_blue x y z :
  res_truthy (getVoxelColor (state_of 2 (one_cell (0, 0, 0) (Some "red"%string))) x y z) =
  res_truthy (getVoxelColor (state_of 2 (one_cell (0, 0, 0) (Some "blue"%string))) x y z).
Proof.
  rewrite !getVoxelColor_state_of. destruct (out_of_bounds 2 x y z); [reflexivity|].
  unfold one_cell. destruct (decide _); reflexivity.
Qed.

Lemma resetVoxelData_fresh_grid_witness :
  (0 <= gridSize demo_state < 4294967296 /\
   (voxelData demo_state = None \/
    exists vd, voxelData demo_state = Some vd /\
      (Z.of_nat (length vd) <> gridSize demo_state \/ wf_grid (gridSize demo_state) vd = true))) /\
  resetVoxelData demo_state =
    (Ok tt, with_voxelData demo_state (grid_of (gridSize demo_state) (fun _ _ _ => None))) /\
  wf_state (with_voxelData demo_state (grid_of (gridSize demo_state) (fun _ _ _ => None))) = true /\
  forall x y z,
    getVoxelColor (with_voxelData demo_state (grid_of (gridSize demo_state) (fun _ _ _ => None)))
      x y z = Ok None.
Proof.
  assert (H1 : 0 <= gridSize demo_state < 4294967296) by (cbn; lia).
  assert (H2 : voxelData demo_state = None \/
    exists vd, voxelData demo_state = Some vd /\
      (Z.of_nat (length vd) <> gridSize demo_state \/ wf_grid (gridSize demo_state) vd = true))
    by (right; eexists; split; [reflexivity|right; vm_compute; reflexivity]).
  split; [split; [exact H1|exact H2]|].
  apply (resetVoxelData_fresh_grid demo_state H1 H2).
Defined.

Lemma resetVoxelData_negative_size_witness :
  let st := mkState true (Some []) (Some (grid_of 2 (one_cell (0, 0, 0) (Some "red"%string))))
              None (-1) 0 [] [] in
  gridSize st < 0 /\ resetVoxelData st = (Throw "Invalid array length", st).
Proof.
  intros st. split; [cbn; lia|]. apply (resetVoxelData_negative_size st). cbn; lia.
Defined.

Lemma disposeVoxelResources_leaves_node_in_scene_witness :
  (scene demo_state = Some [NOther "light"; NVoxelMesh 0] /\ voxelMesh demo_state = Some 0%nat /\
   voxel_meshes [NOther "light"; NVoxelMesh 0] = [0%nat]) /\
  let st1 := snd (disposeVoxelResources demo_state) in
  let st2 := snd (updateVoxelMesh (fun _ _ => None) st1) in
  fst (disposeVoxelResources demo_state) = Ok tt /\
  voxelMesh st1 = None /\ scene st1 = Some [NOther "light"; NVoxelMesh 0] /\
  rlog st1 = rlog demo_state ++ [EDisposeGeometry 0; EDisposeMaterial 0] /\
  exists sc2, scene st2 = Some sc2 /\ voxel_meshes sc2 = 0%nat :: opt_list (voxelMesh st2).
Proof.
  split; [repeat split|].
  apply (disposeVoxelResources_leaves_node_in_scene (fun _ _ => None) demo_state
           [NOther "light"; NVoxelMesh 0] 0%nat); reflexivity.
Defined.

Lemma updateVoxelMesh_uninitialized_grid_witness :
  let st := mkState true (Some [NOther "light"; NVoxelMesh 0]) None (Some 0%nat) 2 1 [] [] in
  (scene st = Some [NOther "light"; NVoxelMesh 0] /\ voxelData st = None /\
   voxel_meshes [NOther "light"; NVoxelMesh 0] = opt_list (voxelMesh st)) /\
  exists sc1,
    updateVoxelMesh (fun _ _ => None) st =
      (Throw "Voxel data not initialized",
       mkState (interpreter st) (Some sc1) None None (gridSize st) (next_id st)
         (rlog st ++ dispose_events (voxelMesh st)) (outbox st)) /\
    voxel_meshes sc1 = [] /\ other_nodes sc1 = other_nodes [NOther "light"; NVoxelMesh 0].
Proof.
  intros st. split; [repeat split|].
  apply (updateVoxelMesh_uninitialized_grid (fun _ _ => None) st
           [NOther "light"; NVoxelMesh 0]); reflexivity.
Defined.

Lemma updateVoxelMesh_keeps_other_nodes_witness :
  scene demo_state = Some [NOther "light"; NVoxelMesh 0] /\
  let st' := snd (updateVoxelMesh (fun _ _ => None) demo_state) in
  exists sc', scene st' = Some sc' /\ other_nodes sc' = other_nodes [NOther "light"; NVoxelMesh 0] /\
    interpreter st' = interpreter demo_state /\ voxelData st' = voxelData demo_state /\
    gridSize st' = gridSize demo_state /\ outbox st' = outbox demo_state.
Proof.
  split; [reflexivity|].
  apply (updateVoxelMesh_keeps_other_nodes (fun _ _ => None) demo_state
           [NOther "light"; NVoxelMesh 0]); reflexivity.
Defined.

Lemma updateVoxelMesh_mesh_iff_visible_cell_witness :
  (scene demo_state = Some [NOther "light"; NVoxelMesh 0] /\
   voxel_meshes [NOther "light"; NVoxelMesh 0] = opt_list (voxelMesh demo_state) /\
   voxelData demo_state = Some (grid_of 2 (one_cell (0, 0, 0) (Some "red"%string))) /\
   wf_grid (gridSize demo_state) (grid_of 2 (one_cell (0, 0, 0) (Some "red"%string))) = true) /\
  (mesh_count (snd (updateVoxelMesh (fun _ _ => None) demo_state)) = 1%nat <->
   exists x y z s, getVoxelColor demo_state x y z = Ok (Some s) /\ s <> ""%string).
Proof.
  split; [split; [reflexivity|split; [reflexivity|split; [reflexivity|vm_compute; reflexivity]]]|].
  apply (updateVoxelMesh_mesh_iff_visible_cell (fun _ _ => None) demo_state
           [NOther "light"; NVoxelMesh 0] (grid_of 2 (one_cell (0, 0, 0) (Some "red"%string))));
    [reflexivity|reflexivity|reflexivity|vm_compute; reflexivity].
Defined.

Lemma generateVoxelGeometry_quad_indices_witness :
  exists b, generateVoxelGeometry (fun _ _ => None) demo_state = Ok b /\
  exists n, length (positions b) = (12 * n)%nat /\ length (normals b) = (12 * n)%nat /\
    length (colors b) = (12 * n)%nat /\ indices b = quad_indices n.
Proof.
  eexists. split; [vm_compute; reflexivity|].
  apply (generateVoxelGeometry_quad_indices (fun _ _ => None) demo_state).
  vm_compute. reflexivity.
Defined.

Lemma generateVoxelGeometry_shape_from_truthiness_witness :
  (wf_state (state_of 2 (one_cell (0, 0, 0) (Some "red"%string))) = true /\
   wf_state (state_of 2 (one_cell (0, 0, 0) (Some "blue"%string))) = true /\
   gridSize (state_of 2 (one_cell (0, 0, 0) (Some "red"%string))) =
     gridSize (state_of 2 (one_cell (0, 0, 0) (Some "blue"%string)))) /\
  exists b b',
    generateVoxelGeometry (fun _ _ => None) (state_of 2 (one_cell (0, 0, 0) (Some "red"%string)))
      = Ok b /\
    generateVoxelGeometry (fun c _ => Some c) (state_of 2 (one_cell (0, 0, 0) (Some "blue"%string)))
      = Ok b' /\
    positions b = positions b' /\ normals b = normals b' /\ indices b = indices b'.
Proof.
  split; [split; [vm_compute; reflexivity|split; [vm_compute; reflexivity|reflexivity]]|].
  apply (generateVoxelGeometry_shape_from_truthiness (fun _ _ => None) (fun c _ => Some c));
    [vm_compute; reflexivity|vm_compute; reflexivity|reflexivity|exact truthy_red_blue].
Defined.

Lemma generateVoxelGeometry_positions_bounded_witness :
  exists b, generateVoxelGeometry (fun _ _ => None) demo_state = Ok b /\
  Forall (fun q => (1 # 2) - inject_Z (gridSize demo_state) / 2 <= q <=
                   inject_Z (gridSize demo_state) / 2 + (1 # 2))%Q (positions b).
Proof.
  eexists. split; [vm_compute; reflexivity|].
  apply (generateVoxelGeometry_positions_bounded (fun _ _ => None) demo_state).
  vm_compute. reflexivity.
Defined.

Lemma runPythonCode_not_initialized_witness :
  let st := mkState false (Some []) None None 2 0 [] [] in
  initialized st = false /\
  runPythonCode (fun _ _ => None) string demo_parse demo_eval "ok" st =
    (Ok None, post st (MError
       "Code execution failed: Interpreter, scene, or voxelData not initialized"%string)) /\
  run_alone (fun _ _ => None) string demo_parse demo_eval "ok" st =
    (Ok tt, post st (MError
       "Code execution failed: Interpreter, scene, or voxelData not initialized"%string)).
Proof.
  intros st. split; [reflexivity|].
  apply (runPythonCode_not_initialized (fun _ _ => None) string demo_parse demo_eval "ok" st).
  reflexivity.
Defined.

Lemma run_alone_messages_witness :
  let st := state_of 2 (fun _ _ _ => None) in
  (initialized st = true /\ voxelData st = Some (grid_of 2 (fun _ _ _ => None)) /\
   wf_grid (gridSize st) (grid_of 2 (fun _ _ _ => None)) = true /\
   demo_parse "bad" = Ok "bad"%string) /\
  exists st', run_alone (fun _ _ => None) string demo_parse demo_eval "bad" st = (Ok tt, st') /\
    outbox st' = outbox st ++ flat_map (cell_warning string demo_eval "bad"%string (gridSize st))
                                (loop_cells (gridSize st)) ++ [MSuccess].
Proof.
  intros st. split; [split; [reflexivity|split; [reflexivity|split; [vm_compute|]]]; reflexivity|].
  apply (run_alone_messages (fun _ _ => None) string demo_parse demo_eval "bad" "bad"%string st
           (grid_of 2 (fun _ _ _ => None))); [reflexivity|reflexivity|vm_compute; reflexivity|
                                              reflexivity].
Defined.

Lemma run_alone_forgets_old_grid_witness :
  let st := state_of 2 (fun _ _ _ => None) in
  let vd2 := grid_of 2 (one_cell (0, 0, 0) (Some "red"%string)) in
  (initialized st = true /\ voxelData st = Some (grid_of 2 (fun _ _ _ => None)) /\
   wf_grid (gridSize st) (grid_of 2 (fun _ _ _ => None)) = true /\
   wf_grid (gridSize st) vd2 = true /\ demo_parse "bad" = Ok "bad"%string) /\
  run_alone (fun _ _ => None) string demo_parse demo_eval "bad" (with_voxelData st vd2) =
  run_alone (fun _ _ => None) string demo_parse demo_eval "bad" st.
Proof.
  intros st vd2.
  split; [split; [reflexivity|split; [reflexivity|split; [vm_compute; reflexivity|
          split; [vm_compute; reflexivity|reflexivity]]]]|].
  apply (run_alone_forgets_old_grid (fun _ _ => None) string demo_parse demo_eval "bad"
           "bad"%string st (grid_of 2 (fun _ _ _ => None)) vd2);
    [reflexivity|reflexivity|vm_compute; reflexivity|vm_compute; reflexivity|reflexivity].
Defined.

Lemma runPythonCode_empty_grid_no_yield_witness :
  let st := state_of 0 (fun _ _ _ => None) in
  (initialized st = true /\ voxelData st = Some (grid_of 0 (fun _ _ _ => None)) /\
   gridSize st <= 0 /\ demo_parse "ok" = Ok "ok"%string) /\
  exists st', updateVoxelMesh (fun _ _ => None) st = (Ok tt, st') /\
    runPythonCode (fun _ _ => None) string demo_parse demo_eval "ok" st =
      (Ok None, post st' MSuccess) /\
    voxelMesh st' = None /\ voxelData st' = Some (grid_of 0 (fun _ _ _ => None)) /\
    outbox st' = outbox st.
Proof.
  intros st. split; [split; [reflexivity|split; [reflexivity|split; [cbn; lia|reflexivity]]]|].
  apply (runPythonCode_empty_grid_no_yield (fun _ _ => None) string demo_parse demo_eval "ok"
           "ok"%string st (grid_of 0 (fun _ _ _ => None))); [reflexivity|reflexivity|cbn; lia|
                                                            reflexivity].
Defined.

Lemma init_builds_fresh_scene_witness :
  let w := mkWorker demo_state true true true [] in
  (0 <= 3 < 4294967296 /\ outbox (core w) = []) /\
  let w' := init (fun _ _ => None) (Ok tt) (Ok tt) 3 w in
  scene (core w') = Some scene_helpers /\
  voxelData (core w') = Some (grid_of 3 (fun _ _ _ => None)) /\
  voxelMesh (core w') = None /\ gridSize (core w') = 3 /\ initialized (core w') = true /\
  rlog (core w') = rlog (core w) ++ dispose_events (voxelMesh (core w)) ++
    [ENewGeometry (next_id (core w)); EDisposeGeometry (next_id (core w))] /\
  animating w' = true /\ posted w' = posted w ++ [WStatus "init"].
Proof.
  intros w. split; [split; [lia|reflexivity]|].
  apply (init_builds_fresh_scene (fun _ _ => None) 3 w); [lia|reflexivity].
Defined.

Lemma init_then_run_witness :
  (0 <= 2 < 4294967296 /\ outbox (core initial_worker) = [] /\
   demo_parse "bad" = Ok "bad"%string) /\
  let st := core (init (fun _ _ => None) (Ok tt) (Ok tt) 2 initial_worker) in
  exists st', run_alone (fun _ _ => None) string demo_parse demo_eval "bad" st = (Ok tt, st') /\
    outbox st' = flat_map (cell_warning string demo_eval "bad"%string 2) (loop_cells 2) ++ [MSuccess] /\
    (mesh_count st' = 1%nat <->
     exists x y z s, 0 <= x < 2 /\ 0 <= y < 2 /\ 0 <= z < 2 /\
       cell_value string demo_eval "bad"%string 2 (x, y, z) = Some s /\ s <> ""%string).
Proof.
  split; [split; [lia|split; reflexivity]|].
  apply (init_then_run (fun _ _ => None) string demo_parse demo_eval "bad" "bad"%string 2
           initial_worker); [lia|reflexivity|reflexivity].
Defined.

Lemma init_invalid_grid_size_witness :
  (-1 < 0 \/ 4294967296 <= -1) /\
  let w' := init (fun _ _ => None) (Ok tt) (Ok tt) (-1) initial_worker in
  posted w' = posted initial_worker ++
    [WCore (MError "Initialization failed: Invalid array length")] /\
  animating w' = animating initial_worker /\ scene (core w') = Some [] /\
  voxelData (core w') = voxelData (core initial_worker) /\
  voxelMesh (core w') = voxelMesh (core initial_worker) /\ gridSize (core w') = -1 /\
  (voxelData (core initial_worker) = None ->
   runPythonCode (fun _ _ => None) string demo_parse demo_eval "ok" (core w') =
     (Ok None, post (core w') (MError
       "Code execution failed: Interpreter, scene, or voxelData not initialized"))).
Proof.
  split; [left; lia|].
  apply (init_invalid_grid_size (fun _ _ => None) string demo_parse demo_eval "ok" (-1)
           initial_worker). left; lia.
Defined.

Lemma terminate_releases_and_blocks_runs_witness :
  let w := mkWorker demo_state true true true [] in
  (scene (core w) = Some [NOther "light"; NVoxelMesh 0] /\ voxelMesh (core w) = Some 0%nat) /\
  let w' := terminate w in
  rlog (core w') = rlog (core w) ++ [ESceneRemove 0; EDisposeGeometry 0; EDisposeMaterial 0] /\
  animating w' = false /\ three w' = false /\ camera w' = false /\
  posted w' = posted w ++ [WStatus "terminate"] /\
  runPythonCode (fun _ _ => None) string demo_parse demo_eval "ok" (core w') =
    (Ok None, post (core w') (MError
       "Code execution failed: Interpreter, scene, or voxelData not initialized")).
Proof.
  intros w. split; [split; reflexivity|].
  apply (terminate_releases_and_blocks_runs (fun _ _ => None) string demo_parse demo_eval "ok" w
           [NOther "light"; NVoxelMesh 0] 0%nat); reflexivity.
Defined.
